(** * The task store service of [backend/app.py]

    A shallow embedding of the Flask handlers of [backend/app.py] and the
    properties of the task collection they maintain.

    The module-level globals [tasks] and [task_counter] become a record
    [store] that every handler threads explicitly; a handler is a
    computation in a small state-and-exception monad, because a Python
    handler can both mutate the globals and raise.  Values that come from
    the request body are JSON values as [json.loads] builds them. *)

From Stdlib Require Import ZArith PrimFloat.
From stdpp Require Import base option list sorting gmap strings.

Open Scope Z_scope.

(** ** JSON values as Python sees them *)

(** [request.get_json()] yields [None], a [bool], an [int], a [float], a
    [str], a [list] or a [dict] with string keys. *)
#[warnings="-register-all"]
Inductive json : Type :=
| JNull
| JBool (b : bool)
| JInt (n : Z)
| JFloat (f : float)
| JStr (s : string)
| JArr (l : list json)
| JObj (m : gmap string json).

(** The exceptions the handlers can run into. *)
Inductive exn : Type := TypeError | KeyError | AttributeError.

Inductive result (A : Type) : Type :=
| Ok (a : A)
| Raise (e : exn).
Arguments Ok {A} a.
Arguments Raise {A} e.

Module Py.

(** [bool(v)]: the truth value Python gives a JSON value. *)
Definition truthy (v : json) : bool :=
  match v with
  | JNull => false
  | JBool b => b
  | JInt n => negb (n =? 0)
  | JFloat f => negb (PrimFloat.eqb f 0%float)
  | JStr s => negb (String.eqb s "")
  | JArr l => match l with [] => false | _ :: _ => true end
  | JObj m => negb (bool_decide (m = ∅))
  end.

(** [needle in s] for two strings: [needle] occurs as a substring. *)
Fixpoint substring_of (needle s : string) : bool :=
  String.prefix needle s ||
  match s with
  | EmptyString => false
  | String _ rest => substring_of needle rest
  end.

(** [x == key] for a JSON value [x] and a string [key]. *)
Definition eq_str (key : string) (x : json) : bool :=
  match x with
  | JStr s => String.eqb s key
  | _ => false
  end.

(** [key in data]. *)
Definition contains (key : string) (data : json) : result bool :=
  match data with
  | JObj m => Ok (bool_decide (is_Some (m !! key)))
  | JArr l => Ok (existsb (eq_str key) l)
  | JStr s => Ok (substring_of key s)
  | JNull | JBool _ | JInt _ | JFloat _ => Raise TypeError
  end.

(** [data[key]] for a string [key]. *)
Definition getitem (data : json) (key : string) : result json :=
  match data with
  | JObj m => match m !! key with
              | Some v => Ok v
              | None => Raise KeyError
              end
  | _ => Raise TypeError
  end.

(** [data.get(key, dflt)]. *)
Definition get (data : json) (key : string) (dflt : json) : result json :=
  match data with
  | JObj m => Ok (default dflt (m !! key))
  | _ => Raise AttributeError
  end.

End Py.

(** ** Tasks and the store *)

(** A task is a dict with exactly the keys [id], [title], [description],
    [completed] and [created_at]; nothing in the program adds or removes a
    key, so it is a record here. *)
Record task : Type := Task {
  t_id : Z;
  t_title : json;
  t_description : json;
  t_completed : json;
  t_created_at : string
}.

Definition set_title (v : json) (t : task) : task :=
  Task (t_id t) v (t_description t) (t_completed t) (t_created_at t).
Definition set_description (v : json) (t : task) : task :=
  Task (t_id t) (t_title t) v (t_completed t) (t_created_at t).
Definition set_completed (v : json) (t : task) : task :=
  Task (t_id t) (t_title t) (t_description t) v (t_created_at t).

(** The globals [tasks] and [task_counter]. *)
Record store : Type := Store {
  tasks : list task;
  task_counter : Z
}.

(** The task dict as the JSON object [jsonify] sends. *)
Definition task_json (t : task) : json :=
  JObj (<["id" := JInt (t_id t)]>
       (<["title" := t_title t]>
       (<["description" := t_description t]>
       (<["completed" := t_completed t]>
       (<["created_at" := JStr (t_created_at t)]> ∅))))).

(** A response: the JSON body and the HTTP status. *)
Definition response : Type := json * Z.

Definition error_body (msg : string) : json := JObj {[ "error" := JStr msg ]}.
Definition message_body (msg : string) : json := JObj {[ "message" := JStr msg ]}.

(** ** The handler monad: state passing with exceptions *)

Definition M (A : Type) : Type := store → result A * store.

#[global] Instance M_ret : MRet M := λ A a s, (Ok a, s).
#[global] Instance M_bind : MBind M := λ A B k c s,
  match c s with
  | (Ok a, s') => k a s'
  | (Raise e, s') => (Raise e, s')
  end.

(** A pure Python operation that may raise. *)
Definition lift {A} (r : result A) : M A := λ s, (r, s).

Definition read_tasks : M (list task) := λ s, (Ok (tasks s), s).
Definition read_counter : M Z := λ s, (Ok (task_counter s), s).
Definition write_tasks (l : list task) : M unit :=
  λ s, (Ok (), Store l (task_counter s)).
Definition write_counter (c : Z) : M unit :=
  λ s, (Ok (), Store (tasks s) c).

(** [next((t for t in tasks if t['id'] == task_id), None)]: the first task
    with that id, together with its position in the list, which stands for
    the reference to the dict that the handler goes on to mutate. *)
Definition next_task (task_id : Z) : M (option (nat * task)) :=
  l ← read_tasks; mret (list_find (λ t, t_id t = task_id) l).

(** [task[k] = v] on the dict held at position [i] of [tasks]. *)
Definition assign (i : nat) (t : task) : M unit :=
  l ← read_tasks; write_tasks (<[i := t]> l).

(** ** The handlers *)

Definition health_check (now : string) : M response :=
  mret (JObj (<["status" := JStr "healthy"]>
             (<["timestamp" := JStr now]> ∅)), 200).

Definition get_tasks : M response :=
  l ← read_tasks;
  mret (JObj (<["tasks" := JArr (task_json <$> l)]>
             (<["total" := JInt (Z.of_nat (length l))]> ∅)), 200).

Definition get_task (task_id : Z) : M response :=
  found ← next_task task_id;
  match found with
  | Some (_, t) => mret (task_json t, 200)
  | None => mret (error_body "Task not found", 404)
  end.

(** [now] is the value of [datetime.now().isoformat()] and [data] the value
    of [request.get_json()]. *)
Definition create_task (now : string) (data : json) : M response :=
  missing ← (if negb (Py.truthy data) then mret true
             else b ← lift (Py.contains "title" data); mret (negb b));
  if (missing : bool) then mret (error_body "Title is required", 400)
  else
    c ← read_counter;
    title ← lift (Py.getitem data "title");
    description ← lift (Py.get data "description" (JStr ""));
    completed ← lift (Py.get data "completed" (JBool false));
    let new_task := Task c title description completed now in
    l ← read_tasks;
    write_tasks (l ++ [new_task]);;
    c ← read_counter;
    write_counter (c + 1);;
    mret (task_json new_task, 201).

Definition update_task (task_id : Z) (data : json) : M response :=
  found ← next_task task_id;
  match found with
  | None => mret (error_body "Task not found", 404)
  | Some (i, t) =>
      if negb (Py.truthy data) then mret (error_body "No data provided", 400)
      else
        v ← lift (Py.get data "title" (t_title t));
        let t := set_title v t in
        assign i t;;
        v ← lift (Py.get data "description" (t_description t));
        let t := set_description v t in
        assign i t;;
        v ← lift (Py.get data "completed" (t_completed t));
        let t := set_completed v t in
        assign i t;;
        mret (task_json t, 200)
  end.

Definition delete_task (task_id : Z) : M response :=
  found ← next_task task_id;
  match found with
  | None => mret (error_body "Task not found", 404)
  | Some _ =>
      l ← read_tasks;
      write_tasks (filter (λ t, t_id t ≠ task_id) l);;
      mret (message_body "Task deleted successfully", 200)
  end.

Definition toggle_task (task_id : Z) : M response :=
  found ← next_task task_id;
  match found with
  | None => mret (error_body "Task not found", 404)
  | Some (i, t) =>
      let t := set_completed (JBool (negb (Py.truthy (t_completed t)))) t in
      assign i t;;
      mret (task_json t, 200)
  end.

Definition internal_error : response :=
  (error_body "Internal server error", 500).

(** ** Start-up and request dispatch *)

Definition learn_flask : task :=
  Task 1 (JStr "Learn Flask") (JStr "Build a REST API with Flask")
       (JBool false) "2024-01-01T10:00:00".
Definition learn_react : task :=
  Task 2 (JStr "Learn React") (JStr "Create a frontend with React")
       (JBool false) "2024-01-01T11:00:00".
Definition setup_cicd : task :=
  Task 3 (JStr "Setup CI/CD") (JStr "Configure GitHub Actions")
       (JBool true) "2024-01-01T12:00:00".

Definition sample_data : list task := [learn_flask; learn_react; setup_cicd].

(** The module body: [tasks = []], [task_counter = 1], then the sample data
    is loaded because the list is still empty. *)
Definition initial_store : store :=
  let s := Store [] 1 in
  match tasks s with
  | [] => Store (tasks s ++ sample_data) 4
  | _ :: _ => s
  end.

(** One request per route; [now] and [data] are what the handler reads from
    the clock and from [request.get_json()]. *)
Inductive request : Type :=
| HealthCheck (now : string)
| GetTasks
| GetTask (task_id : Z)
| CreateTask (now : string) (data : json)
| UpdateTask (task_id : Z) (data : json)
| DeleteTask (task_id : Z)
| ToggleTask (task_id : Z).

Definition handler (r : request) : M response :=
  match r with
  | HealthCheck now => health_check now
  | GetTasks => get_tasks
  | GetTask task_id => get_task task_id
  | CreateTask now data => create_task now data
  | UpdateTask task_id data => update_task task_id data
  | DeleteTask task_id => delete_task task_id
  | ToggleTask task_id => toggle_task task_id
  end.

(** The application: an exception that escapes a handler is answered by the
    [errorhandler(500)] response; the globals keep whatever the handler had
    written before it raised. *)
Definition serve (r : request) (s : store) : response * store :=
  match handler r s with
  | (Ok resp, s') => (resp, s')
  | (Raise _, s') => (internal_error, s')
  end.

(** A session: the responses to a sequence of requests, and the final store. *)
Fixpoint run (rs : list request) (s : store) : list response * store :=
  match rs with
  | [] => ([], s)
  | r :: rs' =>
      let '(resp, s') := serve r s in
      let '(resps, s'') := run rs' s' in
      (resp :: resps, s'')
  end.

(** The value of a field of a JSON body, if it is an object that has it. *)
Definition field (key : string) (body : json) : option json :=
  match body with
  | JObj m => m !! key
  | _ => None
  end.

(** The id a create request was answered with: the [id] of a 201 body. *)
Definition created_id (r : request) (resp : response) : option Z :=
  match r, resp with
  | CreateTask _ _, (body, 201) =>
      match field "id" body with
      | Some (JInt n) => Some n
      | _ => None
      end
  | _, _ => None
  end.

(** The ids handed out by the create requests of a session, in order. *)
Fixpoint created_ids (rs : list request) (s : store) : list Z :=
  match rs with
  | [] => []
  | r :: rs' =>
      let '(resp, s') := serve r s in
      match created_id r resp with
      | Some n => n :: created_ids rs' s'
      | None => created_ids rs' s'
      end
  end.

(** ** Invariants of the store *)

(** Every id in the collection was handed out before: it lies below the
    counter. *)
Definition counter_fresh (s : store) : Prop :=
  Forall (λ t, t_id t < task_counter s) (tasks s).

(** No two tasks of the collection share an id. *)
Definition ids_unique (s : store) : Prop :=
  NoDup (t_id <$> tasks s).

Definition store_ok (s : store) : Prop :=
  counter_fresh s ∧ ids_unique s.

(** The stores the running service can be in. *)
Inductive reachable : store → Prop :=
| reach_start : reachable initial_store
| reach_serve r s : reachable s → reachable (serve r s).2.

(** The task a PUT with the object [m] as body turns [t] into. *)
Definition merged (m : gmap string json) (t : task) : task :=
  Task (t_id t)
       (default (t_title t) (m !! "title"))
       (default (t_description t) (m !! "description"))
       (default (t_completed t) (m !! "completed"))
       (t_created_at t).

(** The task a toggle turns [t] into. *)
Definition toggled (t : task) : task :=
  set_completed (JBool (negb (Py.truthy (t_completed t)))) t.


(** The four shapes of a transition: nothing happens, a task with the
    counter's id is appended and the counter moves on, one slot is
    overwritten by a task with the same id, or the tasks of one id are
    filtered out. *)
Inductive transition (s s' : store) : Prop :=
| tr_same : s' = s → transition s s'
| tr_append t :
    t_id t = task_counter s →
    s' = Store (tasks s ++ [t]) (task_counter s + 1) → transition s s'
| tr_assign i t t' :
    tasks s !! i = Some t → t_id t' = t_id t →
    s' = Store (<[i := t']> (tasks s)) (task_counter s) → transition s s'
| tr_filter task_id :
    s' = Store (filter (λ t, t_id t ≠ task_id) (tasks s)) (task_counter s) →
    transition s s'.


(** ** Sample requests *)

Definition test_task_fields : gmap string json :=
  {[ "title" := JStr "Test Task"; "description" := JStr "x" ]}.
Definition test_task : json := JObj test_task_fields.

Definition untitled_fields : gmap string json :=
  {[ "description" := JStr "This task has no title" ]}.
Definition untitled : json := JObj untitled_fields.


Definition completed_yes : json :=
  JObj {[ "title" := JStr "Task to Toggle"; "completed" := JStr "yes" ]}.

Definition only_completed : gmap string json := {[ "completed" := JBool true ]}.

(** Create, delete what was created, create again. *)
Definition create_delete_create : list request := [
  CreateTask "2024-01-02T09:00:00" test_task;
  DeleteTask 4;
  CreateTask "2024-01-02T09:05:00" test_task
].

(** The store after a create whose [completed] is the string ["yes"]. *)
Definition store_with_yes : store :=
  (serve (CreateTask "2024-01-02T09:00:00" completed_yes) initial_store).2.

(** ** What a request is about *)

(** The id a request can touch: the id a create would hand out, or the id
    in the URL of an update, delete or toggle. *)
Definition target (r : request) (s : store) : option Z :=
  match r with
  | CreateTask _ _ => Some (task_counter s)
  | UpdateTask task_id _ | DeleteTask task_id | ToggleTask task_id =>
      Some task_id
  | HealthCheck _ | GetTasks | GetTask _ => None
  end.


(** The JSON values that are neither [None] nor a container: [in] raises on
    them. *)
Definition scalar (data : json) : bool :=
  match data with
  | JBool _ | JInt _ | JFloat _ => true
  | JNull | JStr _ | JArr _ | JObj _ => false
  end.

Definition title_list : json := JArr [JStr "title"].

Definition with_id_fields : gmap string json :=
  {[ "title" := JStr "Test Task"; "id" := JInt 99 ]}.

Definition title_only_fields : gmap string json :=
  {[ "title" := JStr "Test Task" ]}.

(** ** The request body before [request.get_json()] *)

(** What [request.get_json()], called with its defaults ([force=False],
    [silent=False]) on the first line of [create_task] and after the lookup
    in [update_task], finds in the request: a content type that is not JSON
    (a request sent without body and without header is one), a JSON content
    type with bytes that are not a JSON document (the empty body is one), or
    a JSON document, [null] included. *)
Inductive sent : Type :=
| NotJson
| Unparsable
| Document (data : json).

(** The HTTP exceptions [get_json] raises: 415 Unsupported Media Type for a
    content type that is not JSON, 400 Bad Request for bytes that do not
    parse. *)
Inductive http_exception : Type := UnsupportedMediaType | BadRequest.

Definition exception_status (e : http_exception) : Z :=
  match e with
  | UnsupportedMediaType => 415
  | BadRequest => 400
  end.

Definition get_json (p : sent) : http_exception + json :=
  match p with
  | NotJson => inl UnsupportedMediaType
  | Unparsable => inl BadRequest
  | Document data => inr data
  end.

(** What the client receives: the JSON response of a handler, or, for an
    HTTP exception, the exception's own HTML page, since the application
    registers handlers for 404 and 500 only. *)
Inductive reply : Type :=
| JsonReply (resp : response)
| HtmlReply (status : Z).

Definition reply_status (a : reply) : Z :=
  match a with
  | JsonReply (_, status) => status
  | HtmlReply status => status
  end.

(** The [error] field of what the client receives; an HTML page has none. *)
Definition error_field (a : reply) : option json :=
  match a with
  | JsonReply (body, _) => field "error" body
  | HtmlReply _ => None
  end.

Definition json_reply (out : response * store) : reply * store :=
  (JsonReply out.1, out.2).

(** A request as it arrives at a route, its body not yet read. *)
Inductive call : Type :=
| Health (now : string)
| ListTasks
| Fetch (task_id : Z)
| Post (now : string) (p : sent)
| Put (task_id : Z) (p : sent)
| Remove (task_id : Z)
| Patch (task_id : Z).

(** The route's answer.  [create_task] reads the body first, so an HTTP
    exception of [get_json] ends the request before anything else happens;
    [update_task] has returned its 404 before it reads the body. *)
Definition answer (c : call) (s : store) : reply * store :=
  match c with
  | Health now => json_reply (serve (HealthCheck now) s)
  | ListTasks => json_reply (serve GetTasks s)
  | Fetch task_id => json_reply (serve (GetTask task_id) s)
  | Post now p =>
      match get_json p with
      | inl e => (HtmlReply (exception_status e), s)
      | inr data => json_reply (serve (CreateTask now data) s)
      end
  | Put task_id p =>
      match list_find (λ t, t_id t = task_id) (tasks s), get_json p with
      | None, inl _ => (JsonReply (error_body "Task not found", 404), s)
      | Some _, inl e => (HtmlReply (exception_status e), s)
      | _, inr data => json_reply (serve (UpdateTask task_id data) s)
      end
  | Remove task_id => json_reply (serve (DeleteTask task_id) s)
  | Patch task_id => json_reply (serve (ToggleTask task_id) s)
  end.

Definition id_only_fields : gmap string json := {[ "id" := JInt 99 ]}.

(** * Equations of the handlers *)

Ltac unfold_m :=
  unfold next_task, assign, read_tasks, read_counter, write_tasks,
    write_counter, lift, mbind, M_bind, mret, M_ret in *.

Lemma store_eta s : Store (tasks s) (task_counter s) = s.
Proof. by destruct s. Qed.

Lemma get_task_eq task_id s :
  get_task task_id s =
  match list_find (λ t, t_id t = task_id) (tasks s) with
  | Some (_, t) => (Ok (task_json t, 200), s)
  | None => (Ok (error_body "Task not found", 404), s)
  end.
Proof.
  unfold get_task. unfold_m. simpl.
  destruct (list_find _ _) as [[i t]|]; reflexivity.
Qed.

Lemma create_task_obj now m s :
  create_task now (JObj m) s =
  match m !! "title" with
  | Some v =>
      let t := Task (task_counter s) v (default (JStr "") (m !! "description"))
                    (default (JBool false) (m !! "completed")) now in
      (Ok (task_json t, 201), Store (tasks s ++ [t]) (task_counter s + 1))
  | None => (Ok (error_body "Title is required", 400), s)
  end.
Proof.
  unfold create_task. unfold_m. simpl.
  destruct (m !! "title") as [v|] eqn:Hm.
  - rewrite (bool_decide_false (m = ∅))
      by (intros ->; by rewrite lookup_empty in Hm).
    rewrite (bool_decide_true (is_Some _)) by (by eexists). reflexivity.
  - rewrite (bool_decide_false (is_Some _)) by (by intros [? ?]).
    case_bool_decide; reflexivity.
Qed.

(** A body that is not an object never creates a task: it is answered 400
    or the handler raises, and the globals stay as they were. *)
Lemma create_task_not_obj now data s :
  (∀ m, data ≠ JObj m) →
  create_task now data s = (Ok (error_body "Title is required", 400), s) ∨
  ∃ e, create_task now data s = (Raise e, s).
Proof.
  intros Hno. unfold create_task. unfold_m.
  destruct data as [|b|n|f|str|l|m]; simpl.
  - by left.
  - destruct b; simpl; [right; by eexists | by left].
  - destruct (n =? 0); simpl; [by left | right; by eexists].
  - destruct (PrimFloat.eqb f 0); simpl; [by left | right; by eexists].
  - destruct (String.eqb str ""); simpl; [by left|].
    destruct (Py.substring_of "title" str); simpl; [right; by eexists | by left].
  - destruct l as [|x l]; simpl; [by left|].
    destruct (Py.eq_str "title" x || existsb (Py.eq_str "title") l); simpl;
      [right; by eexists | by left].
  - by destruct (Hno m).
Qed.

Lemma update_task_eq task_id data s :
  update_task task_id data s =
  match list_find (λ t, t_id t = task_id) (tasks s) with
  | None => (Ok (error_body "Task not found", 404), s)
  | Some (i, t) =>
      if negb (Py.truthy data) then (Ok (error_body "No data provided", 400), s)
      else match data with
           | JObj m => (Ok (task_json (merged m t), 200),
                        Store (<[i := merged m t]> (tasks s)) (task_counter s))
           | _ => (Raise AttributeError, s)
           end
  end.
Proof.
  unfold update_task. unfold_m. simpl.
  destruct (list_find _ _) as [[i t]|]; [|reflexivity].
  destruct (negb (Py.truthy data)); [reflexivity|].
  destruct data; try reflexivity.
  simpl. by rewrite !list_insert_insert_eq.
Qed.

Lemma delete_task_eq task_id s :
  delete_task task_id s =
  match list_find (λ t, t_id t = task_id) (tasks s) with
  | None => (Ok (error_body "Task not found", 404), s)
  | Some _ => (Ok (message_body "Task deleted successfully", 200),
               Store (filter (λ t, t_id t ≠ task_id) (tasks s)) (task_counter s))
  end.
Proof.
  unfold delete_task. unfold_m. simpl.
  destruct (list_find _ _) as [[i t]|]; reflexivity.
Qed.

Lemma toggle_task_eq task_id s :
  toggle_task task_id s =
  match list_find (λ t, t_id t = task_id) (tasks s) with
  | None => (Ok (error_body "Task not found", 404), s)
  | Some (i, t) => (Ok (task_json (toggled t), 200),
                    Store (<[i := toggled t]> (tasks s)) (task_counter s))
  end.
Proof.
  unfold toggle_task. unfold_m. simpl.
  destruct (list_find _ _) as [[i t]|]; reflexivity.
Qed.

(** * What a request can do to the store *)

Lemma json_obj_dec data : (∃ m, data = JObj m) ∨ (∀ m, data ≠ JObj m).
Proof. destruct data; eauto; right; discriminate. Qed.

Lemma field_id_task_json t : field "id" (task_json t) = Some (JInt (t_id t)).
Proof. reflexivity. Qed.

Lemma field_error_body msg : field "error" (error_body msg) = Some (JStr msg).
Proof. reflexivity. Qed.

Lemma list_find_task_lookup task_id (l : list task) i t :
  list_find (λ t, t_id t = task_id) l = Some (i, t) →
  l !! i = Some t ∧ t_id t = task_id.
Proof. intros (? & ? & _)%list_find_Some. done. Qed.

Lemma serve_transition r s : transition s (serve r s).2.
Proof.
  unfold serve. destruct r as [now| |task_id|now data|task_id data|task_id|task_id];
    simpl.
  - by apply tr_same.
  - by apply tr_same.
  - rewrite get_task_eq.
    destruct (list_find _ _) as [[i t]|]; by apply tr_same.
  - destruct (json_obj_dec data) as [[m ->]|Hno].
    + rewrite create_task_obj. destruct (m !! "title") as [v|]; simpl.
      * by eapply tr_append; [|reflexivity].
      * by apply tr_same.
    + destruct (create_task_not_obj now data s Hno) as [->|[e ->]];
        by apply tr_same.
  - rewrite update_task_eq.
    destruct (list_find _ _) as [[i t]|] eqn:Hfind; [|by apply tr_same].
    apply list_find_task_lookup in Hfind as [Hi _].
    destruct (negb (Py.truthy data)); [by apply tr_same|].
    destruct data; try by apply tr_same.
    simpl. by apply (tr_assign _ _ i t (merged m t)).
  - rewrite delete_task_eq.
    destruct (list_find _ _) as [[i t]|]; [|by apply tr_same].
    by eapply tr_filter.
  - rewrite toggle_task_eq.
    destruct (list_find _ _) as [[i t]|] eqn:Hfind; [|by apply tr_same].
    apply list_find_task_lookup in Hfind as [Hi _].
    simpl. by apply (tr_assign _ _ i t (toggled t)).
Qed.

Lemma transition_counter s s' :
  transition s s' → task_counter s ≤ task_counter s'.
Proof. destruct 1; subst; simpl; lia. Qed.

Lemma transition_counter_fresh s s' :
  transition s s' → counter_fresh s → counter_fresh s'.
Proof.
  unfold counter_fresh. destruct 1 as [->|t Ht ->|i t t' Hi Ht ->|task_id ->];
    simpl; intros Hs.
  - done.
  - apply Forall_app. split.
    + eapply Forall_impl; [done|]. simpl. intros. lia.
    + apply Forall_singleton. lia.
  - apply Forall_insert; [done|]. rewrite Ht.
    by eapply (Forall_lookup_1 _ _ _ _ Hs).
  - rewrite Forall_forall in Hs |- *.
    intros t [_ Hin]%list_elem_of_filter. by apply Hs.
Qed.

Lemma transition_ids_unique s s' :
  transition s s' → counter_fresh s → ids_unique s → ids_unique s'.
Proof.
  unfold counter_fresh, ids_unique.
  destruct 1 as [->|t Ht ->|i t t' Hi Ht ->|task_id ->]; simpl; intros Hs Hu.
  - done.
  - rewrite fmap_app. apply NoDup_app. split_and!; [done| |apply NoDup_singleton].
    intros n (t0 & -> & Hin)%list_elem_of_fmap. simpl.
    rewrite list_elem_of_singleton, Ht.
    rewrite Forall_forall in Hs. specialize (Hs _ Hin). simpl in Hs. lia.
  - rewrite list_fmap_insert, Ht, list_insert_id; [done|].
    by rewrite list_lookup_fmap, Hi.
  - eapply sublist_NoDup; [done|]. apply fmap_sublist, sublist_filter.
Qed.

Lemma serve_store_ok r s : store_ok s → store_ok (serve r s).2.
Proof.
  intros [Hf Hu]. pose proof (serve_transition r s) as Htr. split.
  - by eapply transition_counter_fresh.
  - by eapply transition_ids_unique.
Qed.

Lemma initial_store_ok : store_ok initial_store.
Proof.
  split.
  - unfold counter_fresh. simpl. repeat constructor.
  - unfold ids_unique. simpl. by apply (bool_decide_unpack _).
Qed.

(** Every store the service can reach keeps its ids distinct and below the
    counter. *)
Lemma reachable_store_ok s : reachable s → store_ok s.
Proof.
  induction 1 as [|r s _ IH]; [apply initial_store_ok | by apply serve_store_ok].
Qed.

(** * Identifiers *)

Lemma created_id_counter r s n :
  created_id r (serve r s).1 = Some n →
  n = task_counter s ∧ task_counter (serve r s).2 = n + 1.
Proof.
  destruct r as [now| |task_id|now data|task_id data|task_id|task_id];
    try discriminate.
  unfold serve. simpl.
  destruct (json_obj_dec data) as [[m ->]|Hno].
  - rewrite create_task_obj. destruct (m !! "title") as [v|]; simpl.
    + intros [= <-]. done.
    + discriminate.
  - destruct (create_task_not_obj now data s Hno) as [->|[e ->]]; discriminate.
Qed.

Lemma created_ids_from_counter rs : ∀ s,
  Forall (λ n, task_counter s ≤ n) (created_ids rs s) ∧
  StronglySorted Z.lt (created_ids rs s).
Proof.
  induction rs as [|r rs IH]; intros s; simpl.
  - split; constructor.
  - pose proof (created_id_counter r s) as Hid.
    pose proof (transition_counter _ _ (serve_transition r s)) as Hmono.
    destruct (serve r s) as [resp s']. simpl in *.
    destruct (IH s') as [Hge Hsorted].
    destruct (created_id r resp) as [n|].
    + destruct (Hid n eq_refl) as [-> Hs']. split.
      * constructor; [lia|]. eapply Forall_impl; [done|]. simpl. intros. lia.
      * constructor; [done|]. eapply Forall_impl; [done|]. simpl. intros. lia.
    + split; [|done]. eapply Forall_impl; [done|]. simpl. intros. lia.
Qed.

(** The whole life of the service: the sample ids followed by every id a
    create returns form a strictly increasing list. *)
Lemma lifetime_ids_increasing rs :
  StronglySorted Z.lt
    ((t_id <$> tasks initial_store) ++ created_ids rs initial_store).
Proof.
  destruct (created_ids_from_counter rs initial_store) as [Hge Hsorted].
  apply StronglySorted_app_2; [| |done].
  - intros a b Ha Hb. rewrite Forall_forall in Hge. specialize (Hge _ Hb).
    simpl in Ha, Hge.
    repeat (apply elem_of_cons in Ha as [->|Ha]); [lia..|].
    by apply elem_of_nil in Ha.
  - simpl. repeat constructor.
Qed.

(** C1. Whatever requests the service answers, the ids returned by the
    create requests are strictly increasing in the order they are handed
    out, each is strictly greater than the id of every task that was in the
    collection before, and so none is handed out twice or taken over from
    an earlier task, deleted or not.  The hypothesis holds of every store
    the service reaches ([reachable_store_ok]). *)
Theorem created_ids_fresh rs s :
  counter_fresh s →
  StronglySorted Z.lt (created_ids rs s) ∧
  Forall (λ n, Forall (λ t, t_id t < n) (tasks s)) (created_ids rs s) ∧
  NoDup (created_ids rs s) ∧
  (∀ n, n ∈ created_ids rs s → n ∉ t_id <$> tasks s).
Proof.
  intros Hfresh. destruct (created_ids_from_counter rs s) as [Hge Hsorted].
  assert (Forall (λ n, Forall (λ t, t_id t < n) (tasks s)) (created_ids rs s))
    as Habove.
  { eapply Forall_impl; [exact Hge|]. simpl. intros n Hn.
    eapply Forall_impl; [exact Hfresh|]. simpl. intros. lia. }
  split_and!; [done|done| |].
  - clear -Hsorted. induction Hsorted as [|n l _ IH Hall]; constructor; [|done].
    intros Hin. rewrite Forall_forall in Hall. specialize (Hall _ Hin). lia.
  - intros n Hn (t & -> & Hin)%list_elem_of_fmap.
    rewrite Forall_forall in Habove. specialize (Habove _ Hn).
    rewrite Forall_forall in Habove. specialize (Habove _ Hin). lia.
Qed.

(** * Create *)

(** What create does with the value [request.get_json()] has returned.  On
    [None], or on an object that has no [title] key, it answers 400 with an
    [error] field; on an object that has [title] it builds the task from the
    counter, the payload with the defaults [""] and [False], and the clock,
    appends it, moves the counter on by one and answers 201 with that
    task. *)
Theorem create_task_spec now s :
  serve (CreateTask now JNull) s = ((error_body "Title is required", 400), s) ∧
  (∀ m, m !! "title" = None →
     ∃ body, serve (CreateTask now (JObj m)) s = ((body, 400), s) ∧
             is_Some (field "error" body)) ∧
  (∀ m v, m !! "title" = Some v →
     ∃ t, serve (CreateTask now (JObj m)) s =
            ((task_json t, 201), Store (tasks s ++ [t]) (task_counter s + 1)) ∧
          t_id t = task_counter s ∧
          t_title t = v ∧
          t_description t = default (JStr "") (m !! "description") ∧
          t_completed t = default (JBool false) (m !! "completed") ∧
          t_created_at t = now).
Proof.
  split_and!.
  - reflexivity.
  - intros m Hm. unfold serve. simpl. rewrite create_task_obj, Hm.
    eexists. split; [reflexivity|]. by eexists.
  - intros m v Hm. unfold serve. simpl. rewrite create_task_obj, Hm. simpl.
    eexists. split; [reflexivity|]. done.
Qed.

(** * Missing ids *)

(** C4. When no task has the id, get, update, delete and toggle each answer
    404 with a body that has an [error] field. *)
Theorem not_found_404 s task_id data r :
  Forall (λ t, t_id t ≠ task_id) (tasks s) →
  r ∈ [GetTask task_id; UpdateTask task_id data; DeleteTask task_id;
       ToggleTask task_id] →
  ∃ body, (serve r s).1 = (body, 404) ∧ is_Some (field "error" body).
Proof.
  intros Hnone%(list_find_None (λ t, t_id t = task_id)) Hr.
  exists (error_body "Task not found"). split; [|by eexists].
  unfold serve.
  repeat (apply elem_of_cons in Hr as [->|Hr]); [| | | |by apply elem_of_nil in Hr];
    simpl.
  - by rewrite get_task_eq, Hnone.
  - by rewrite update_task_eq, Hnone.
  - by rewrite delete_task_eq, Hnone.
  - by rewrite toggle_task_eq, Hnone.
Qed.

(** * Errors leave the store alone *)

(** C9. A request answered 404 or 400 leaves the collection and the counter
    as they were. *)
Theorem error_response_no_effect r s :
  (serve r s).1.2 = 404 ∨ (serve r s).1.2 = 400 →
  (serve r s).2 = s.
Proof.
  unfold serve.
  destruct r as [now| |task_id|now data|task_id data|task_id|task_id]; simpl.
  - done.
  - done.
  - rewrite get_task_eq. by destruct (list_find _ _) as [[i t]|].
  - destruct (json_obj_dec data) as [[m ->]|Hno].
    + rewrite create_task_obj. destruct (m !! "title") as [v|]; simpl; [|done].
      intros [?|?]; discriminate.
    + by destruct (create_task_not_obj now data s Hno) as [->|[e ->]].
  - rewrite update_task_eq. destruct (list_find _ _) as [[i t]|]; [|done].
    destruct (negb (Py.truthy data)); [done|].
    destruct data; try done. simpl. intros [?|?]; discriminate.
  - rewrite delete_task_eq. destruct (list_find _ _) as [[i t]|]; [|done].
    simpl. intros [?|?]; discriminate.
  - rewrite toggle_task_eq. destruct (list_find _ _) as [[i t]|]; [|done].
    simpl. intros [?|?]; discriminate.
Qed.

(** An exception that escapes a handler leaves the store alone as well. *)
Lemma internal_error_no_effect r s :
  (serve r s).1.2 = 500 → (serve r s).2 = s.
Proof.
  unfold serve.
  destruct r as [now| |task_id|now data|task_id data|task_id|task_id]; simpl.
  - done.
  - done.
  - rewrite get_task_eq. by destruct (list_find _ _) as [[i t]|].
  - destruct (json_obj_dec data) as [[m ->]|Hno].
    + rewrite create_task_obj. by destruct (m !! "title") as [v|].
    + by destruct (create_task_not_obj now data s Hno) as [->|[e ->]].
  - rewrite update_task_eq. destruct (list_find _ _) as [[i t]|]; [|done].
    destruct (negb (Py.truthy data)); [done|]. by destruct data.
  - rewrite delete_task_eq. by destruct (list_find _ _) as [[i t]|].
  - rewrite toggle_task_eq. by destruct (list_find _ _) as [[i t]|].
Qed.

(** C10. For an existing id, an update whose body is the empty object is
    answered 400 and leaves the store, and so the task, as it was. *)
Theorem update_task_empty_object s task_id i t :
  list_find (λ t, t_id t = task_id) (tasks s) = Some (i, t) →
  serve (UpdateTask task_id (JObj ∅)) s =
    ((error_body "No data provided", 400), s).
Proof.
  intros Hfind. unfold serve. simpl. by rewrite update_task_eq, Hfind.
Qed.

(** * Update *)

Lemma list_find_task_assign task_id (l : list task) i t t' :
  list_find (λ t, t_id t = task_id) l = Some (i, t) →
  t_id t' = task_id →
  list_find (λ t, t_id t = task_id) (<[i := t']> l) = Some (i, t').
Proof.
  intros (Hi & _ & Hleast)%list_find_Some Ht'.
  apply list_find_insert_Some. right; left.
  split_and!; [done|done| |done|done].
  by eapply lookup_lt_Some.
Qed.

(** C3. For an existing id and a non-empty object as payload, update answers
    200 with the task in which exactly the supplied fields among [title],
    [description] and [completed] carry the supplied values; the fields not
    supplied, [id] and [created_at] are as before, the task keeps its place
    and every other place of the collection holds what it held. *)
Theorem update_task_frame s task_id m i t :
  list_find (λ t, t_id t = task_id) (tasks s) = Some (i, t) →
  m ≠ ∅ →
  ∃ t' s',
    serve (UpdateTask task_id (JObj m)) s = ((task_json t', 200), s') ∧
    t_title t' = default (t_title t) (m !! "title") ∧
    t_description t' = default (t_description t) (m !! "description") ∧
    t_completed t' = default (t_completed t) (m !! "completed") ∧
    t_id t' = t_id t ∧
    t_created_at t' = t_created_at t ∧
    tasks s' !! i = Some t' ∧
    (∀ j, j ≠ i → tasks s' !! j = tasks s !! j) ∧
    length (tasks s') = length (tasks s) ∧
    task_counter s' = task_counter s.
Proof.
  intros Hfind Hm. exists (merged m t). eexists.
  unfold serve. simpl. rewrite update_task_eq, Hfind. simpl.
  rewrite (bool_decide_false (m = ∅)) by done. simpl.
  split; [reflexivity|]. simpl.
  apply list_find_task_lookup in Hfind as [Hi _].
  split_and!; try done.
  - apply list_lookup_insert_eq. by eapply lookup_lt_Some.
  - intros j Hj. by apply list_lookup_insert_ne.
  - apply length_insert.
Qed.

(** A truthy body that is not an object makes update raise at the first
    [data.get]; nothing has been assigned by then. *)
Lemma update_task_not_obj s task_id data i t :
  list_find (λ t, t_id t = task_id) (tasks s) = Some (i, t) →
  Py.truthy data = true →
  (∀ m, data ≠ JObj m) →
  serve (UpdateTask task_id data) s = (internal_error, s).
Proof.
  intros Hfind Htrue Hno. unfold serve. simpl.
  rewrite update_task_eq, Hfind, Htrue. simpl.
  destruct data; try done. by destruct (Hno m).
Qed.

(** * Toggle *)

(** C5, as the code has it. For an existing id one toggle answers 200 with
    the task whose [completed] is Python's [not] of the old value, and a
    second toggle answers with [completed] equal to the truth value of the
    original; when the original is a boolean that is the original itself and
    the store is back where it was. *)
Theorem toggle_task_twice s task_id i t :
  list_find (λ t, t_id t = task_id) (tasks s) = Some (i, t) →
  ∃ s1 s2,
    serve (ToggleTask task_id) s =
      ((task_json (set_completed (JBool (negb (Py.truthy (t_completed t)))) t),
        200), s1) ∧
    tasks s1 =
      <[i := set_completed (JBool (negb (Py.truthy (t_completed t)))) t]>
        (tasks s) ∧
    serve (ToggleTask task_id) s1 =
      ((task_json (set_completed (JBool (Py.truthy (t_completed t))) t),
        200), s2) ∧
    tasks s2 =
      <[i := set_completed (JBool (Py.truthy (t_completed t))) t]> (tasks s) ∧
    task_counter s2 = task_counter s ∧
    (∀ b, t_completed t = JBool b → s2 = s).
Proof.
  intros Hfind. eexists. eexists.
  unfold serve. simpl. rewrite toggle_task_eq, Hfind. simpl.
  split; [reflexivity|]. split; [reflexivity|].
  rewrite toggle_task_eq. simpl.
  rewrite (list_find_task_assign task_id _ i t (toggled t) Hfind)
    by (by apply list_find_task_lookup in Hfind as [_ ?]).
  simpl. rewrite list_insert_insert_eq.
  unfold toggled, set_completed. simpl. rewrite negb_involutive.
  split; [reflexivity|]. split; [reflexivity|]. split; [reflexivity|].
  intros b Hb. apply list_find_task_lookup in Hfind as [Hi _].
  rewrite Hb. simpl. rewrite <-Hb.
  rewrite list_insert_id; [apply store_eta|]. by destruct t.
Qed.

(** * Create, then get *)

Lemma list_find_appended s t :
  counter_fresh s →
  t_id t = task_counter s →
  list_find (λ t', t_id t' = task_counter s) (tasks s ++ [t]) =
    Some (length (tasks s), t).
Proof.
  intros Hfresh Ht. apply list_find_Some. split_and!.
  - by rewrite lookup_app_r, Nat.sub_diag.
  - done.
  - intros j y Hj Hlt. rewrite lookup_app_l in Hj by done.
    unfold counter_fresh in Hfresh.
    pose proof (Forall_lookup_1 _ _ _ _ Hfresh Hj) as Hy. simpl in Hy. lia.
Qed.

(** C6. Creating a task from an object with a [title] and then fetching the
    returned id answers 200 with the very body that create returned, so
    with the same [title], [description] and [completed].  The hypothesis
    on the store holds of every store the service reaches
    ([reachable_store_ok]). *)
Theorem create_then_get now m v s :
  counter_fresh s →
  m !! "title" = Some v →
  ∃ created n s' fetched,
    serve (CreateTask now (JObj m)) s = ((created, 201), s') ∧
    field "id" created = Some (JInt n) ∧
    serve (GetTask n) s' = ((fetched, 200), s') ∧
    fetched = created ∧
    field "title" fetched = Some v ∧
    field "description" fetched = Some (default (JStr "") (m !! "description")) ∧
    field "completed" fetched = Some (default (JBool false) (m !! "completed")).
Proof.
  intros Hfresh Hm.
  set (t := Task (task_counter s) v (default (JStr "") (m !! "description"))
                 (default (JBool false) (m !! "completed")) now).
  exists (task_json t), (task_counter s). eexists. exists (task_json t).
  unfold serve. simpl. rewrite create_task_obj, Hm. simpl.
  split; [reflexivity|]. split; [reflexivity|]. split; [|done].
  rewrite get_task_eq. simpl.
  pose proof (list_find_appended s t Hfresh eq_refl) as Hfound.
  subst t. by rewrite Hfound.
Qed.

(** * Delete *)

Lemma filter_keeps_all task_id (l : list task) :
  Forall (λ t, t_id t ≠ task_id) l →
  filter (λ t, t_id t ≠ task_id) l = l.
Proof.
  induction 1 as [|x l Hx _ IH]; [done|].
  by rewrite filter_cons_True, IH.
Qed.

Lemma filter_other_ids (l : list task) i t :
  NoDup (t_id <$> l) →
  l !! i = Some t →
  filter (λ t', t_id t' ≠ t_id t) l = delete i l.
Proof.
  revert i. induction l as [|x l IH]; intros i Hnd Hi; [done|].
  rewrite fmap_cons in Hnd. apply NoDup_cons in Hnd as [Hx Hnd].
  destruct i as [|i]; simpl in Hi.
  - injection Hi as ->. rewrite filter_cons_False by (intros H; by apply H).
    simpl. apply filter_keeps_all.
    apply Forall_forall. intros y Hy Heq. apply Hx. rewrite <-Heq.
    by apply list_elem_of_fmap_2.
  - rewrite filter_cons_True.
    + simpl. f_equal. by apply IH.
    + intros Heq. apply Hx. rewrite Heq.
      apply list_elem_of_fmap_2. by eapply list_elem_of_lookup_2.
Qed.

Lemma transition_absent task_id s s' :
  transition s s' →
  task_id < task_counter s →
  Forall (λ t, t_id t ≠ task_id) (tasks s) →
  Forall (λ t, t_id t ≠ task_id) (tasks s').
Proof.
  destruct 1 as [->|t Ht ->|i t t' Hi Ht ->|other ->]; simpl; intros Hlt Hs.
  - done.
  - apply Forall_app. split; [done|]. apply Forall_singleton. lia.
  - apply Forall_insert; [done|]. rewrite Ht.
    by eapply (Forall_lookup_1 _ _ _ _ Hs).
  - rewrite Forall_forall in Hs |- *.
    intros t [_ Hin]%list_elem_of_filter. by apply Hs.
Qed.

Lemma run_absent rs : ∀ s task_id,
  task_id < task_counter s →
  Forall (λ t, t_id t ≠ task_id) (tasks s) →
  Forall (λ t, t_id t ≠ task_id) (tasks (run rs s).2).
Proof.
  induction rs as [|r rs IH]; intros s task_id Hlt Hs; simpl; [done|].
  pose proof (serve_transition r s) as Htr.
  destruct (serve r s) as [resp s'] eqn:Hserve. simpl in Htr.
  specialize (IH s' task_id).
  destruct (run rs s') as [resps s'']. simpl in *.
  apply IH.
  - apply transition_counter in Htr. lia.
  - by eapply transition_absent.
Qed.

(** C7. For an existing id, delete answers 200 and the collection becomes
    the old one without that task: one task fewer, every other task kept in
    its order.  A get on the id is answered 404 from then on, whatever
    requests come in between.  The hypothesis on the store holds of every
    store the service reaches ([reachable_store_ok]). *)
Theorem delete_task_removes s task_id i t :
  store_ok s →
  list_find (λ t, t_id t = task_id) (tasks s) = Some (i, t) →
  ∃ s',
    serve (DeleteTask task_id) s =
      ((message_body "Task deleted successfully", 200), s') ∧
    tasks s' = delete i (tasks s) ∧
    (length (tasks s') + 1 = length (tasks s))%nat ∧
    task_counter s' = task_counter s ∧
    ∀ rs, (serve (GetTask task_id) (run rs s').2).1 =
            (error_body "Task not found", 404).
Proof.
  intros [Hfresh Huniq] Hfind. eexists.
  unfold serve at 1. simpl. rewrite delete_task_eq, Hfind.
  split; [reflexivity|]. simpl.
  apply list_find_task_lookup in Hfind as [Hi <-].
  rewrite (filter_other_ids _ i t Huniq Hi).
  split_and!; [done| |done|].
  - rewrite length_delete by (by eexists). apply lookup_lt_Some in Hi. lia.
  - intros rs. unfold serve. simpl. rewrite get_task_eq.
    rewrite (proj2 (list_find_None _ _)); [done|].
    apply run_absent; simpl.
    + by apply (Forall_lookup_1 _ _ _ _ Hfresh Hi).
    + rewrite <-(filter_other_ids _ i t Huniq Hi).
      apply Forall_forall. by intros y [? _]%list_elem_of_filter.
Qed.

(** * Titles *)


(** * Concrete runs *)

(** The ids of a create, delete, create session on the sample data. *)
Example created_ids_sample :
  created_ids create_delete_create initial_store = [4; 5].
Proof. vm_compute. reflexivity. Qed.


(** C5 as stated fails: task 4 is created with [completed] equal to
    ["yes"]; after two toggles its [completed] is [True]. *)
Lemma toggle_twice_not_original :
  field "completed" (serve (GetTask 4) store_with_yes).1.1
    = Some (JStr "yes") ∧
  (run [ToggleTask 4; ToggleTask 4] store_with_yes).1.*2 = [200; 200] ∧
  field "completed"
    (serve (GetTask 4) (run [ToggleTask 4; ToggleTask 4] store_with_yes).2).1.1
    = Some (JBool true) ∧
  JBool true ≠ JStr "yes".
Proof. vm_compute. done. Qed.

(** * The theorems at work on the sample data *)

Lemma created_ids_fresh_witness :
  counter_fresh initial_store ∧
  (StronglySorted Z.lt (created_ids create_delete_create initial_store) ∧
   Forall (λ n, Forall (λ t, t_id t < n) (tasks initial_store))
          (created_ids create_delete_create initial_store) ∧
   NoDup (created_ids create_delete_create initial_store) ∧
   (∀ n, n ∈ created_ids create_delete_create initial_store →
         n ∉ t_id <$> tasks initial_store)).
Proof.
  assert (counter_fresh initial_store) as H
    by (unfold counter_fresh; simpl; repeat constructor).
  split; [exact H|].
  exact (created_ids_fresh create_delete_create initial_store H).
Defined.

Lemma create_task_spec_witness :
  (∃ body, serve (CreateTask "2024-01-02T09:00:00" untitled) initial_store =
             ((body, 400), initial_store) ∧ is_Some (field "error" body)) ∧
  (∃ t, serve (CreateTask "2024-01-02T09:00:00" test_task) initial_store =
          ((task_json t, 201), Store (tasks initial_store ++ [t]) 5) ∧
        t_id t = 4 ∧
        t_title t = JStr "Test Task" ∧
        t_description t = JStr "x" ∧
        t_completed t = JBool false ∧
        t_created_at t = "2024-01-02T09:00:00").
Proof.
  destruct (create_task_spec "2024-01-02T09:00:00" initial_store)
    as (_ & Hmissing & Hpresent).
  split.
  - exact (Hmissing untitled_fields eq_refl).
  - exact (Hpresent test_task_fields (JStr "Test Task") eq_refl).
Defined.

Lemma update_task_frame_witness :
  list_find (λ t, t_id t = 2) (tasks initial_store) = Some (1%nat, learn_react) ∧
  only_completed ≠ ∅ ∧
  ∃ t' s',
    serve (UpdateTask 2 (JObj only_completed)) initial_store
      = ((task_json t', 200), s') ∧
    t_title t' = default (t_title learn_react) (only_completed !! "title") ∧
    t_description t' =
      default (t_description learn_react) (only_completed !! "description") ∧
    t_completed t' =
      default (t_completed learn_react) (only_completed !! "completed") ∧
    t_id t' = t_id learn_react ∧
    t_created_at t' = t_created_at learn_react ∧
    tasks s' !! 1%nat = Some t' ∧
    (∀ j, j ≠ 1%nat → tasks s' !! j = tasks initial_store !! j) ∧
    length (tasks s') = length (tasks initial_store) ∧
    task_counter s' = task_counter initial_store.
Proof.
  assert (only_completed ≠ ∅) as Hne by apply map_non_empty_singleton.
  split; [reflexivity|]. split; [exact Hne|].
  exact (update_task_frame initial_store 2 only_completed 1 learn_react
           eq_refl Hne).
Defined.

Lemma not_found_404_witness :
  Forall (λ t, t_id t ≠ 99999) (tasks initial_store) ∧
  ToggleTask 99999 ∈ [GetTask 99999; UpdateTask 99999 test_task;
                      DeleteTask 99999; ToggleTask 99999] ∧
  ∃ body, (serve (ToggleTask 99999) initial_store).1 = (body, 404) ∧
          is_Some (field "error" body).
Proof.
  assert (Forall (λ t, t_id t ≠ 99999) (tasks initial_store)) as Hnone
    by (simpl; repeat constructor; discriminate).
  assert (ToggleTask 99999 ∈ [GetTask 99999; UpdateTask 99999 test_task;
                              DeleteTask 99999; ToggleTask 99999]) as Hin
    by (repeat constructor).
  split; [exact Hnone|]. split; [exact Hin|].
  exact (not_found_404 initial_store 99999 test_task _ Hnone Hin).
Defined.

Lemma toggle_task_twice_witness :
  list_find (λ t, t_id t = 3) (tasks initial_store) = Some (2%nat, setup_cicd) ∧
  ∃ s1 s2,
    serve (ToggleTask 3) initial_store =
      ((task_json (set_completed
                     (JBool (negb (Py.truthy (t_completed setup_cicd))))
                     setup_cicd), 200), s1) ∧
    tasks s1 =
      <[2%nat := set_completed
                   (JBool (negb (Py.truthy (t_completed setup_cicd))))
                   setup_cicd]> (tasks initial_store) ∧
    serve (ToggleTask 3) s1 =
      ((task_json (set_completed (JBool (Py.truthy (t_completed setup_cicd)))
                                 setup_cicd), 200), s2) ∧
    tasks s2 =
      <[2%nat := set_completed (JBool (Py.truthy (t_completed setup_cicd)))
                               setup_cicd]> (tasks initial_store) ∧
    task_counter s2 = task_counter initial_store ∧
    (∀ b, t_completed setup_cicd = JBool b → s2 = initial_store).
Proof.
  split; [reflexivity|].
  exact (toggle_task_twice initial_store 3 2 setup_cicd eq_refl).
Defined.

Lemma create_then_get_witness :
  counter_fresh initial_store ∧
  ∃ created n s' fetched,
    serve (CreateTask "2024-01-02T09:00:00" test_task) initial_store
      = ((created, 201), s') ∧
    field "id" created = Some (JInt n) ∧
    serve (GetTask n) s' = ((fetched, 200), s') ∧
    fetched = created ∧
    field "title" fetched = Some (JStr "Test Task") ∧
    field "description" fetched = Some (JStr "x") ∧
    field "completed" fetched = Some (JBool false).
Proof.
  assert (counter_fresh initial_store) as H
    by (unfold counter_fresh; simpl; repeat constructor).
  split; [exact H|].
  exact (create_then_get "2024-01-02T09:00:00" test_task_fields
           (JStr "Test Task") initial_store H eq_refl).
Defined.

Lemma delete_task_removes_witness :
  store_ok initial_store ∧
  list_find (λ t, t_id t = 2) (tasks initial_store) = Some (1%nat, learn_react) ∧
  ∃ s',
    serve (DeleteTask 2) initial_store =
      ((message_body "Task deleted successfully", 200), s') ∧
    tasks s' = delete 1%nat (tasks initial_store) ∧
    (length (tasks s') + 1 = length (tasks initial_store))%nat ∧
    task_counter s' = task_counter initial_store ∧
    ∀ rs, (serve (GetTask 2) (run rs s').2).1 =
            (error_body "Task not found", 404).
Proof.
  assert (store_ok initial_store) as H.
  { split.
    - unfold counter_fresh; simpl; repeat constructor.
    - unfold ids_unique. simpl. by apply (bool_decide_unpack _). }
  split; [exact H|]. split; [reflexivity|].
  exact (delete_task_removes initial_store 2 1 learn_react H eq_refl).
Defined.


Lemma error_response_no_effect_witness :
  ((serve (GetTask 99999) initial_store).1.2 = 404 ∨
   (serve (GetTask 99999) initial_store).1.2 = 400) ∧
  (serve (GetTask 99999) initial_store).2 = initial_store.
Proof.
  assert ((serve (GetTask 99999) initial_store).1.2 = 404 ∨
          (serve (GetTask 99999) initial_store).1.2 = 400) as H
    by (left; reflexivity).
  split; [exact H|].
  exact (error_response_no_effect (GetTask 99999) initial_store H).
Defined.

Lemma update_task_empty_object_witness :
  list_find (λ t, t_id t = 2) (tasks initial_store) = Some (1%nat, learn_react) ∧
  serve (UpdateTask 2 (JObj ∅)) initial_store =
    ((error_body "No data provided", 400), initial_store).
Proof.
  split; [reflexivity|].
  exact (update_task_empty_object initial_store 2 1 learn_react eq_refl).
Defined.

(** * Reads and writes *)

Lemma serve_create_obj now m s :
  serve (CreateTask now (JObj m)) s =
  match m !! "title" with
  | Some v =>
      let t := Task (task_counter s) v (default (JStr "") (m !! "description"))
                    (default (JBool false) (m !! "completed")) now in
      ((task_json t, 201), Store (tasks s ++ [t]) (task_counter s + 1))
  | None => ((error_body "Title is required", 400), s)
  end.
Proof.
  unfold serve. simpl. rewrite create_task_obj. by destruct (m !! "title").
Qed.

Lemma serve_get_task task_id s :
  serve (GetTask task_id) s =
  (match snd <$> list_find (λ t, t_id t = task_id) (tasks s) with
   | Some t => (task_json t, 200)
   | None => (error_body "Task not found", 404)
   end, s).
Proof.
  unfold serve. simpl. rewrite get_task_eq.
  by destruct (list_find _ _) as [[i t]|].
Qed.


Lemma list_find_unique (l : list task) i t :
  NoDup (t_id <$> l) →
  l !! i = Some t →
  list_find (λ x, t_id x = t_id t) l = Some (i, t).
Proof.
  intros Hnd Hi. apply list_find_Some. split_and!; [done..|].
  intros j y Hj Hlt Heq.
  assert (j = i) as ->; [|lia].
  eapply (NoDup_lookup _ _ _ _ Hnd).
  - by rewrite list_lookup_fmap, Hj.
  - by rewrite list_lookup_fmap, Hi, Heq.
Qed.

(** X2. With distinct ids, the listing has one entry per task, in the order
    of the collection and counted by [total], and get on the id of the task
    at a position answers 200 with the entry the listing shows there. *)
Theorem listed_task_fetchable s i t :
  ids_unique s →
  tasks s !! i = Some t →
  ∃ listed,
    serve GetTasks s =
      ((JObj (<["tasks" := JArr listed]>
             (<["total" := JInt (Z.of_nat (length listed))]> ∅)), 200), s) ∧
    length listed = length (tasks s) ∧
    listed !! i = Some (task_json t) ∧
    serve (GetTask (t_id t)) s = ((task_json t, 200), s).
Proof.
  intros Huniq Hi. exists (task_json <$> tasks s). split_and!.
  - unfold serve. simpl. unfold get_tasks. unfold_m. simpl.
    by rewrite length_fmap.
  - apply length_fmap.
  - by rewrite list_lookup_fmap, Hi.
  - rewrite serve_get_task. by rewrite (list_find_unique _ i t Huniq Hi).
Qed.

(** * Bodies that are not objects *)

Lemma prefix_spec n : ∀ s, String.prefix n s = true ↔ ∃ post, s = n +:+ post.
Proof.
  induction n as [|a n IH]; intros s; simpl.
  - destruct s; split; eauto.
  - destruct s as [|b s]; simpl.
    + split; [done|]. intros [post ?]. done.
    + destruct (Ascii.ascii_dec a b) as [->|Hne].
      * rewrite IH. split; intros [post Hp]; exists post; simpl in *; [by rewrite Hp | by injection Hp].
      * split; [done|]. intros [post Hp]. simpl in Hp. injection Hp as ??. done.
Qed.

Lemma substring_of_spec n s :
  Py.substring_of n s = true ↔ ∃ pre post, s = pre +:+ n +:+ post.
Proof.
  induction s as [|a s IH].
  - change (Py.substring_of n "") with (String.prefix n "" || false).
    rewrite orb_false_r, prefix_spec. split.
    + intros [post ?]. by exists "", post.
    + intros ([|??] & post & Heq); [by exists post | done].
  - change (Py.substring_of n (String a s))
      with (String.prefix n (String a s) || Py.substring_of n s).
    rewrite orb_true_iff, IH, prefix_spec. split.
    + intros [[post Heq]|(pre & post & ->)].
      * by exists "", post.
      * by exists (String a pre), post.
    + intros ([|b pre] & post & Heq).
      * left. by exists post.
      * right. exists pre, post. simpl in Heq. by injection Heq.
Qed.

Lemma existsb_eq_str key l :
  existsb (Py.eq_str key) l = true ↔ JStr key ∈ l.
Proof.
  rewrite existsb_exists. split.
  - intros (x & Hin%list_elem_of_In & Hx). destruct x; try done.
    simpl in Hx. apply String.eqb_eq in Hx as ->. done.
  - intros Hin. exists (JStr key). split; [by apply list_elem_of_In|].
    simpl. apply String.eqb_refl.
Qed.

(** X3. How create treats a body that is not an object with a title.  A
    falsy body of any type is answered 400.  [True] or a non-zero number
    makes ['title' not in data] raise; a list with the element ["title"] and
    a string with the substring ["title"] pass that test and make
    [data['title']] raise: all of these are answered 500.  Other lists and
    strings are answered 400.  The store is untouched throughout. *)
Theorem create_task_bad_body now s :
  (∀ data, Py.truthy data = false →
     serve (CreateTask now data) s = ((error_body "Title is required", 400), s)) ∧
  (∀ data, scalar data = true → Py.truthy data = true →
     serve (CreateTask now data) s = (internal_error, s)) ∧
  (∀ l, JStr "title" ∈ l →
     serve (CreateTask now (JArr l)) s = (internal_error, s)) ∧
  (∀ l, JStr "title" ∉ l →
     serve (CreateTask now (JArr l)) s =
       ((error_body "Title is required", 400), s)) ∧
  (∀ pre post,
     serve (CreateTask now (JStr (pre +:+ "title" +:+ post))) s =
       (internal_error, s)) ∧
  (∀ str, (∀ pre post, str ≠ pre +:+ "title" +:+ post) →
     serve (CreateTask now (JStr str)) s =
       ((error_body "Title is required", 400), s)).
Proof.
  unfold serve, handler, create_task. unfold_m. split_and!.
  - intros data Hfalse. simpl. by rewrite Hfalse.
  - intros data Hsc Htrue. simpl. rewrite Htrue. simpl.
    by destruct data.
  - intros l Hin. assert (Py.truthy (JArr l) = true) as Htrue.
    { destruct l; [by apply elem_of_nil in Hin | done]. }
    rewrite Htrue. cbn [negb Py.contains].
    apply (existsb_eq_str "title") in Hin. rewrite Hin. reflexivity.
  - intros l Hnot. destruct (Py.truthy (JArr l)) eqn:Htrue; [|done].
    cbn [negb Py.contains].
    destruct (existsb (Py.eq_str "title") l) eqn:Hex; [|done].
    by apply existsb_eq_str in Hex.
  - intros pre post.
    assert (Py.substring_of "title" (pre +:+ "title" +:+ post) = true) as Hsub
      by (apply substring_of_spec; eauto).
    assert (Py.truthy (JStr (pre +:+ "title" +:+ post)) = true) as Htrue.
    { destruct pre; done. }
    rewrite Htrue. cbn [negb Py.contains]. rewrite Hsub. reflexivity.
  - intros str Hnot. destruct (Py.truthy (JStr str)) eqn:Htrue; [|done].
    cbn [negb Py.contains].
    destruct (Py.substring_of "title" str) eqn:Hsub; [|done].
    apply substring_of_spec in Hsub as (pre & post & ->). by destruct (Hnot pre post).
Qed.

(** X4. For an existing id, update with a body that is not a non-empty
    object never assigns: a falsy body of any type is answered 400 and a
    truthy one 500, [data.get] raising before the first assignment. *)
Theorem update_task_bad_body s task_id data i t :
  list_find (λ t, t_id t = task_id) (tasks s) = Some (i, t) →
  (∀ m, data = JObj m → m = ∅) →
  serve (UpdateTask task_id data) s =
    (if Py.truthy data then internal_error
     else (error_body "No data provided", 400), s).
Proof.
  intros Hfind Hno. unfold serve. simpl. rewrite update_task_eq, Hfind.
  destruct data as [|b|n|f|str|l|m]; simpl.
  - done.
  - by destruct b.
  - by destruct (n =? 0).
  - by destruct (PrimFloat.eqb f 0).
  - by destruct (String.eqb str "").
  - by destruct l.
  - by rewrite (Hno m eq_refl).
Qed.

(** * Ids come in sequence *)

Lemma created_id_none_counter r s :
  created_id r (serve r s).1 = None →
  task_counter (serve r s).2 = task_counter s.
Proof.
  unfold serve.
  destruct r as [now| |task_id|now data|task_id data|task_id|task_id]; simpl.
  - done.
  - done.
  - rewrite get_task_eq. by destruct (list_find _ _) as [[i t]|].
  - destruct (json_obj_dec data) as [[m ->]|Hno].
    + rewrite create_task_obj. by destruct (m !! "title") as [v|].
    + by destruct (create_task_not_obj now data s Hno) as [->|[e ->]].
  - rewrite update_task_eq. destruct (list_find _ _) as [[i t]|]; [|done].
    destruct (negb (Py.truthy data)); [done|]. by destruct data.
  - rewrite delete_task_eq. by destruct (list_find _ _) as [[i t]|].
  - rewrite toggle_task_eq. by destruct (list_find _ _) as [[i t]|].
Qed.

(** X5. The ids a session's creates return are the consecutive integers
    from the counter on, and the counter ends up advanced by exactly their
    number: a refused create uses up no id. *)
Theorem created_ids_sequential rs : ∀ s,
  created_ids rs s =
    seqZ (task_counter s) (Z.of_nat (length (created_ids rs s))) ∧
  task_counter (run rs s).2 =
    task_counter s + Z.of_nat (length (created_ids rs s)).
Proof.
  induction rs as [|r rs IH]; intros s; simpl.
  - split; [done|lia].
  - pose proof (created_id_counter r s) as Hsome.
    pose proof (created_id_none_counter r s) as Hnone.
    destruct (serve r s) as [resp s']. simpl in *.
    destruct (IH s') as [Hids Hcounter].
    destruct (run rs s') as [resps s'']. simpl in *.
    destruct (created_id r resp) as [n|].
    + destruct (Hsome n eq_refl) as [-> Hs']. split.
      * cbn [length]. rewrite seqZ_cons by lia.
        rewrite Nat2Z.inj_succ, Z.pred_succ. f_equal.
        rewrite Hids at 1. f_equal. lia.
      * cbn [length]. lia.
    + rewrite <-(Hnone eq_refl). done.
Qed.

(** * The collection stays in id order *)

Lemma sublist_StronglySorted {A} (R : relation A) (l1 l2 : list A) :
  l1 `sublist_of` l2 → StronglySorted R l2 → StronglySorted R l1.
Proof.
  induction 1 as [|x l1 l2 Hsub IH|x l1 l2 Hsub IH]; intros Hs.
  - done.
  - apply StronglySorted_cons in Hs as [Hall Hs].
    apply StronglySorted_cons. split; [|by apply IH].
    rewrite Forall_forall in Hall |- *. intros y Hy. apply Hall.
    by eapply elem_of_sublist.
  - apply StronglySorted_cons in Hs as [_ Hs]. by apply IH.
Qed.

Lemma transition_sorted s s' :
  transition s s' → counter_fresh s →
  StronglySorted Z.lt (t_id <$> tasks s) →
  StronglySorted Z.lt (t_id <$> tasks s').
Proof.
  unfold counter_fresh.
  destruct 1 as [->|t Ht ->|i t t' Hi Ht ->|task_id ->]; simpl; intros Hf Hs.
  - done.
  - rewrite fmap_app. apply StronglySorted_app_2; [|done|].
    + intros a b (x & -> & Hx)%list_elem_of_fmap Hb.
      simpl in Hb. apply list_elem_of_singleton in Hb as ->.
      rewrite Forall_forall in Hf. specialize (Hf _ Hx). simpl in Hf. lia.
    + simpl. repeat constructor.
  - rewrite list_fmap_insert, Ht, list_insert_id; [done|].
    by rewrite list_lookup_fmap, Hi.
  - eapply sublist_StronglySorted; [|done]. apply fmap_sublist, sublist_filter.
Qed.

(** X6. If the ids of the collection are strictly increasing along the
    list and below the counter, they are so again after any sequence of
    requests, and the counter has not gone down. *)
Theorem run_keeps_order rs : ∀ s,
  counter_fresh s →
  StronglySorted Z.lt (t_id <$> tasks s) →
  counter_fresh (run rs s).2 ∧
  StronglySorted Z.lt (t_id <$> tasks (run rs s).2) ∧
  task_counter s ≤ task_counter (run rs s).2.
Proof.
  induction rs as [|r rs IH]; intros s Hf Hs; simpl.
  - split_and!; [done|done|lia].
  - pose proof (serve_transition r s) as Htr.
    destruct (serve r s) as [resp s']. simpl in Htr.
    specialize (IH s' (transition_counter_fresh _ _ Htr Hf)
                      (transition_sorted _ _ Htr Hf Hs)).
    apply transition_counter in Htr.
    destruct (run rs s') as [resps s'']. simpl in *.
    destruct IH as (? & ? & ?). split_and!; [done|done|lia].
Qed.


(** * What no request changes *)

(** X7. Every task in the collection after a request carries the [id] and
    [created_at] of a task that was there before, unless it is the task a
    create just made, which carries the counter and the clock. *)
Theorem id_and_created_at_kept r s t' :
  t' ∈ tasks (serve r s).2 →
  (∃ t, t ∈ tasks s ∧ t_id t' = t_id t ∧ t_created_at t' = t_created_at t) ∨
  (∃ now data, r = CreateTask now data ∧
               t_id t' = task_counter s ∧ t_created_at t' = now).
Proof.
  assert (∀ i t t0, tasks s !! i = Some t →
            t_id t0 = t_id t → t_created_at t0 = t_created_at t →
            t' ∈ <[i := t0]> (tasks s) →
            ∃ t, t ∈ tasks s ∧ t_id t' = t_id t ∧
                 t_created_at t' = t_created_at t) as Hassign.
  { intros i t t0 Hi Hid Hat (j & Hj)%list_elem_of_lookup.
    apply list_lookup_insert_Some in Hj as [(-> & -> & _)|[_ Hj]].
    - exists t. split; [by eapply list_elem_of_lookup_2|done].
    - exists t'. split; [by eapply list_elem_of_lookup_2|done]. }
  unfold serve.
  destruct r as [now| |task_id|now data|task_id data|task_id|task_id]; simpl.
  - left. by exists t'.
  - left. by exists t'.
  - rewrite get_task_eq. destruct (list_find _ _) as [[i t]|];
      left; by exists t'.
  - destruct (json_obj_dec data) as [[m ->]|Hno].
    + rewrite create_task_obj. destruct (m !! "title") as [v|]; simpl.
      * intros [Hin|Hin%list_elem_of_singleton]%elem_of_app.
        -- left. by exists t'.
        -- right. exists now, (JObj m). by subst t'.
      * left. by exists t'.
    + destruct (create_task_not_obj now data s Hno) as [->|[e ->]];
        left; by exists t'.
  - rewrite update_task_eq.
    destruct (list_find _ _) as [[i t]|] eqn:Hfind; [|left; by exists t'].
    apply list_find_task_lookup in Hfind as [Hi _].
    destruct (negb (Py.truthy data)); [left; by exists t'|].
    destruct data; try (left; by exists t'). simpl. intros Hin. left.
    by apply (Hassign i t (merged m t)).
  - rewrite delete_task_eq.
    destruct (list_find _ _) as [[i t]|]; [|left; by exists t'].
    simpl. intros [_ Hin]%list_elem_of_filter. left. by exists t'.
  - rewrite toggle_task_eq.
    destruct (list_find _ _) as [[i t]|] eqn:Hfind; [|left; by exists t'].
    apply list_find_task_lookup in Hfind as [Hi _].
    simpl. intros Hin. left. by apply (Hassign i t (toggled t)).
Qed.

(** * Requests about other ids *)

Lemma snd_list_find_cons (P : task → Prop) `{!∀ x, Decision (P x)} x l :
  snd <$> list_find P (x :: l) =
  if decide (P x) then Some x else snd <$> list_find P l.
Proof.
  simpl. destruct (decide (P x)); [done|].
  by destruct (list_find P l) as [[??]|].
Qed.

Lemma snd_list_find_filter (P Q : task → Prop)
    `{!∀ x, Decision (P x)} `{!∀ x, Decision (Q x)} (l : list task) :
  (∀ x, P x → Q x) →
  snd <$> list_find P (filter Q l) = snd <$> list_find P l.
Proof.
  intros HPQ. induction l as [|x l IH]; [done|].
  rewrite filter_cons, (snd_list_find_cons P x l).
  destruct (decide (Q x)) as [HQ|HQ].
  - rewrite snd_list_find_cons. by rewrite IH.
  - rewrite IH. destruct (decide (P x)) as [HP|HP]; [|done].
    by destruct HQ; auto.
Qed.

Lemma snd_list_find_app (P : task → Prop) `{!∀ x, Decision (P x)} l t :
  ¬P t → snd <$> list_find P (l ++ [t]) = snd <$> list_find P l.
Proof.
  intros Ht. induction l as [|x l IH].
  - rewrite app_nil_l, snd_list_find_cons. by rewrite decide_False.
  - rewrite <-app_comm_cons, !snd_list_find_cons. by rewrite IH.
Qed.

Lemma snd_list_find_insert (P : task → Prop) `{!∀ x, Decision (P x)}
    (l : list task) i t t' :
  l !! i = Some t → ¬P t → ¬P t' →
  snd <$> list_find P (<[i := t']> l) = snd <$> list_find P l.
Proof.
  revert i. induction l as [|x l IH]; intros i Hi Ht Ht'; [done|].
  destruct i as [|i]; simpl in Hi.
  - injection Hi as ->. change (<[0%nat := t']> (t :: l)) with (t' :: l).
    rewrite !snd_list_find_cons. by rewrite !decide_False.
  - change (<[S i := t']> (x :: l)) with (x :: <[i := t']> l).
    rewrite !snd_list_find_cons. by rewrite (IH i).
Qed.

(** X8. A request answers nothing about, and changes nothing for, another
    id: get on [task_id] is answered the same before and after any request
    whose target is not [task_id]. *)
Theorem get_task_frame r s task_id :
  target r s ≠ Some task_id →
  (serve (GetTask task_id) (serve r s).2).1 = (serve (GetTask task_id) s).1.
Proof.
  intros Hother. rewrite !serve_get_task. cbn [fst].
  cut (snd <$> list_find (λ t, t_id t = task_id) (tasks (serve r s).2) =
       snd <$> list_find (λ t, t_id t = task_id) (tasks s)).
  { by intros ->. }
  unfold serve.
  destruct r as [now| |other|now data|other data|other|other]; simpl in *.
  - done.
  - done.
  - rewrite get_task_eq. by destruct (list_find _ (tasks s)) as [[i t]|].
  - destruct (json_obj_dec data) as [[m ->]|Hno].
    + rewrite create_task_obj. destruct (m !! "title") as [v|]; simpl; [|done].
      apply snd_list_find_app. simpl. congruence.
    + by destruct (create_task_not_obj now data s Hno) as [->|[e ->]].
  - rewrite update_task_eq.
    destruct (list_find _ (tasks s)) as [[i t]|] eqn:Hfind; [|done].
    apply list_find_task_lookup in Hfind as [Hi Hid].
    destruct (negb (Py.truthy data)); [done|].
    destruct data; try done. simpl.
    apply (snd_list_find_insert _ _ i t); [done|..]; simpl; congruence.
  - rewrite delete_task_eq.
    destruct (list_find _ (tasks s)) as [[i t]|]; [|done].
    simpl. apply snd_list_find_filter. intros x. congruence.
  - rewrite toggle_task_eq.
    destruct (list_find _ (tasks s)) as [[i t]|] eqn:Hfind; [|done].
    apply list_find_task_lookup in Hfind as [Hi Hid].
    simpl. apply (snd_list_find_insert _ _ i t); [done|..]; simpl; congruence.
Qed.

(** * Repeating a request *)

Lemma merged_merged m t : merged m (merged m t) = merged m t.
Proof.
  unfold merged. simpl.
  by destruct (m !! "title"), (m !! "description"), (m !! "completed").
Qed.

(** X9. Sending the same update twice gives the same response and the same
    store as sending it once, whatever the id and the body. *)
Theorem update_task_idempotent task_id data s :
  serve (UpdateTask task_id data) (serve (UpdateTask task_id data) s).2 =
  serve (UpdateTask task_id data) s.
Proof.
  unfold serve. simpl. rewrite (update_task_eq task_id data s).
  destruct (list_find _ (tasks s)) as [[i t]|] eqn:Hfind.
  - destruct (negb (Py.truthy data)) eqn:Hfalsy.
    + simpl. by rewrite update_task_eq, Hfind, Hfalsy.
    + destruct data; simpl; try by rewrite update_task_eq, Hfind, Hfalsy.
      rewrite update_task_eq. simpl in Hfalsy |- *.
      rewrite (list_find_task_assign task_id _ i t (merged m t) Hfind)
        by (by apply list_find_task_lookup in Hfind as [_ ?]).
      rewrite Hfalsy, merged_merged. simpl. by rewrite list_insert_insert_eq.
  - simpl. by rewrite update_task_eq, Hfind.
Qed.

Lemma toggled_thrice t : toggled (toggled (toggled t)) = toggled t.
Proof. unfold toggled, set_completed. simpl. by rewrite negb_involutive. Qed.

Lemma serve_toggle_found task_id s i t :
  list_find (λ t, t_id t = task_id) (tasks s) = Some (i, t) →
  serve (ToggleTask task_id) s =
    ((task_json (toggled t), 200),
     Store (<[i := toggled t]> (tasks s)) (task_counter s)).
Proof. intros Hfind. unfold serve. simpl. by rewrite toggle_task_eq, Hfind. Qed.

(** X10. Three toggles of an id give the same response and the same store
    as one, whatever [completed] held at first. *)
Theorem toggle_task_thrice task_id s :
  serve (ToggleTask task_id)
    (serve (ToggleTask task_id) (serve (ToggleTask task_id) s).2).2 =
  serve (ToggleTask task_id) s.
Proof.
  destruct (list_find (λ t, t_id t = task_id) (tasks s)) as [[i t]|] eqn:Hfind.
  - assert (t_id t = task_id) as Hid
      by (by apply list_find_task_lookup in Hfind as [_ ?]).
    rewrite (serve_toggle_found task_id s i t Hfind). cbn [snd].
    pose proof (list_find_task_assign task_id _ i t (toggled t) Hfind Hid) as H1.
    rewrite (serve_toggle_found task_id (Store _ _) i (toggled t) H1).
    cbn [snd tasks task_counter].
    rewrite list_insert_insert_eq.
    pose proof (list_find_task_assign task_id _ i t (toggled (toggled t)) Hfind Hid)
      as H2.
    rewrite (serve_toggle_found task_id (Store _ _) i (toggled (toggled t)) H2).
    cbn [tasks task_counter]. by rewrite list_insert_insert_eq, toggled_thrice.
  - assert (serve (ToggleTask task_id) s =
            ((error_body "Task not found", 404), s)) as Hmiss.
    { unfold serve. simpl. by rewrite toggle_task_eq, Hfind. }
    rewrite !Hmiss. simpl. by rewrite !Hmiss.
Qed.

(** * After a create *)

(** X11. Deleting the id a create has just returned is answered 200 and
    puts the collection back as it was before the create; the counter stays
    advanced. *)
Theorem create_then_delete now m v s :
  counter_fresh s →
  m !! "title" = Some v →
  ∃ created s1,
    serve (CreateTask now (JObj m)) s = ((created, 201), s1) ∧
    field "id" created = Some (JInt (task_counter s)) ∧
    serve (DeleteTask (task_counter s)) s1 =
      ((message_body "Task deleted successfully", 200),
       Store (tasks s) (task_counter s + 1)).
Proof.
  intros Hfresh Hm. eexists _, _. rewrite serve_create_obj, Hm. cbn zeta.
  split; [reflexivity|]. split; [reflexivity|].
  unfold serve. simpl. rewrite delete_task_eq. simpl.
  set (t := Task (task_counter s) v (default (JStr "") (m !! "description"))
                 (default (JBool false) (m !! "completed")) now).
  rewrite (list_find_appended s t Hfresh eq_refl).
  rewrite filter_app, filter_keeps_all.
  - rewrite filter_cons_False by (simpl; intros H; by apply H).
    by rewrite filter_nil, app_nil_r.
  - eapply Forall_impl; [exact Hfresh|]. simpl. intros. lia.
Qed.

(** X12. After a create the listing is the old listing with the created
    record added at the end, and [total] is one more. *)
Theorem create_then_list now m v s :
  m !! "title" = Some v →
  ∃ created s1,
    serve (CreateTask now (JObj m)) s = ((created, 201), s1) ∧
    (serve GetTasks s1).1 =
      (JObj (<["tasks" := JArr ((task_json <$> tasks s) ++ [created])]>
            (<["total" := JInt (Z.of_nat (length (tasks s)) + 1)]> ∅)), 200) ∧
    (serve GetTasks s).1 =
      (JObj (<["tasks" := JArr (task_json <$> tasks s)]>
            (<["total" := JInt (Z.of_nat (length (tasks s)))]> ∅)), 200).
Proof.
  intros Hm. eexists _, _. rewrite serve_create_obj, Hm. cbn zeta.
  split; [reflexivity|]. split; [|reflexivity].
  unfold serve. simpl. unfold get_tasks. unfold_m. simpl.
  rewrite fmap_app, length_app, Nat2Z.inj_add. reflexivity.
Qed.

(** X13. The id returned by a create is found at once: get, update with
    the same body, toggle and delete on it are each answered 200. *)
Theorem created_id_usable now m v s task_id r :
  counter_fresh s →
  m !! "title" = Some v →
  created_id (CreateTask now (JObj m))
             (serve (CreateTask now (JObj m)) s).1 = Some task_id →
  r ∈ [GetTask task_id; UpdateTask task_id (JObj m); ToggleTask task_id;
       DeleteTask task_id] →
  (serve r (serve (CreateTask now (JObj m)) s).2).1.2 = 200.
Proof.
  intros Hfresh Hm Hid Hr.
  apply created_id_counter in Hid as [-> _].
  rewrite serve_create_obj, Hm. cbn zeta. cbn [snd].
  set (t := Task _ _ _ _ _).
  pose proof (list_find_appended s t Hfresh eq_refl) as Hfind.
  unfold serve.
  repeat (apply elem_of_cons in Hr as [->|Hr]); [| | | |by apply elem_of_nil in Hr];
    simpl.
  - rewrite get_task_eq. cbn [tasks]. by rewrite Hfind.
  - rewrite update_task_eq. cbn [tasks]. rewrite Hfind.
    cbn [Py.truthy]. rewrite (bool_decide_false (m = ∅))
      by (intros ->; by rewrite lookup_empty in Hm).
    done.
  - rewrite toggle_task_eq. cbn [tasks]. by rewrite Hfind.
  - rewrite delete_task_eq. cbn [tasks]. by rewrite Hfind.
Qed.

(** * Ids not handed out yet *)

(** X14. An id at or above the counter has not been handed out: get,
    update, delete and toggle on it are answered 404 and leave the store. *)
Theorem unassigned_id_not_found s task_id data r :
  counter_fresh s →
  task_counter s ≤ task_id →
  r ∈ [GetTask task_id; UpdateTask task_id data; DeleteTask task_id;
       ToggleTask task_id] →
  serve r s = ((error_body "Task not found", 404), s).
Proof.
  intros Hfresh Hge Hr.
  assert (list_find (λ t, t_id t = task_id) (tasks s) = None) as Hnone.
  { apply list_find_None. eapply Forall_impl; [exact Hfresh|].
    simpl. intros. lia. }
  unfold serve.
  repeat (apply elem_of_cons in Hr as [->|Hr]); [| | | |by apply elem_of_nil in Hr];
    simpl.
  - by rewrite get_task_eq, Hnone.
  - by rewrite update_task_eq, Hnone.
  - by rewrite delete_task_eq, Hnone.
  - by rewrite toggle_task_eq, Hnone.
Qed.

(** * The error field *)

(** The statuses a handler answers with, and where the [error] field is. *)
Lemma serve_error_field r s :
  (((serve r s).1.2 = 200 ∨ (serve r s).1.2 = 201) ∧
   field "error" (serve r s).1.1 = None) ∨
  (((serve r s).1.2 = 400 ∨ (serve r s).1.2 = 404 ∨ (serve r s).1.2 = 500) ∧
   is_Some (field "error" (serve r s).1.1)).
Proof.
  unfold serve.
  destruct r as [now| |task_id|now data|task_id data|task_id|task_id]; simpl.
  - left. split; [by left|done].
  - left. split; [by left|done].
  - rewrite get_task_eq. destruct (list_find _ _) as [[i t]|]; simpl.
    + left. split; [by left|done].
    + right. split; [by right; left|by eexists].
  - destruct (json_obj_dec data) as [[m ->]|Hno].
    + rewrite create_task_obj. destruct (m !! "title") as [v|]; simpl.
      * left. split; [by right|done].
      * right. split; [by left|by eexists].
    + destruct (create_task_not_obj now data s Hno) as [->|[e ->]]; simpl.
      * right. split; [by left|by eexists].
      * right. split; [by right; right|by eexists].
  - rewrite update_task_eq. destruct (list_find _ _) as [[i t]|]; simpl.
    + destruct (negb (Py.truthy data)); simpl.
      * right. split; [by left|by eexists].
      * destruct data; simpl;
          try (right; split; [by right; right|by eexists]).
        left. split; [by left|done].
    + right. split; [by right; left|by eexists].
  - rewrite delete_task_eq. destruct (list_find _ _) as [[i t]|]; simpl.
    + left. split; [by left|done].
    + right. split; [by right; left|by eexists].
  - rewrite toggle_task_eq. destruct (list_find _ _) as [[i t]|]; simpl.
    + left. split; [by left|done].
    + right. split; [by right; left|by eexists].
Qed.

(** X15. Whenever [request.get_json()] has returned a value for the body,
    whatever that value is, and on the routes that read no body, the
    response has status 200, 201, 400, 404 or 500, and its body has an
    [error] field exactly when the status is not 200 or 201. *)
Theorem error_field_iff_failure r s :
  ((serve r s).1.2 = 200 ∨ (serve r s).1.2 = 201 ∨ (serve r s).1.2 = 400 ∨
   (serve r s).1.2 = 404 ∨ (serve r s).1.2 = 500) ∧
  (is_Some (field "error" (serve r s).1.1) ↔
   (serve r s).1.2 ≠ 200 ∧ (serve r s).1.2 ≠ 201).
Proof.
  destruct (serve_error_field r s) as [[Hok Hnone]|[Hfail Hsome]].
  - split; [tauto|]. rewrite Hnone. split.
    + intros [? ?]. done.
    + intros [? ?]. destruct Hok; done.
  - split; [tauto|]. split; [|done]. intros _.
    destruct Hfail as [H|[H|H]]; rewrite H; done.
Qed.

(** * Keys and exceptions *)

Lemma create_task_falsy now data s :
  Py.truthy data = false →
  create_task now data s = (Ok (error_body "Title is required", 400), s).
Proof. intros Hfalse. unfold create_task. unfold_m. simpl. by rewrite Hfalse. Qed.

Lemma merged_no_keys m t :
  m !! "title" = None → m !! "description" = None → m !! "completed" = None →
  merged m t = t.
Proof. intros Ht Hd Hc. unfold merged. rewrite Ht, Hd, Hc. by destruct t. Qed.

(** X16. Create reads the keys [title], [description] and [completed] of an
    object only: two objects that agree on the three are treated alike.  So
    is update, as long as the two are both empty or both not, for the one
    other thing update looks at is whether the object is empty: for an
    existing id an object with none of the three keys is answered 400 when
    it is empty and 200, with the task and the store as they were, when it
    is not.  No key of a body sets [id] or [created_at]. *)
Theorem payload_other_keys_ignored m m' :
  m !! "title" = m' !! "title" →
  m !! "description" = m' !! "description" →
  m !! "completed" = m' !! "completed" →
  (∀ now s,
     serve (CreateTask now (JObj m)) s = serve (CreateTask now (JObj m')) s) ∧
  (∀ task_id s, (m = ∅ ↔ m' = ∅) →
     serve (UpdateTask task_id (JObj m)) s =
     serve (UpdateTask task_id (JObj m')) s) ∧
  (∀ task_id s i t,
     list_find (λ t, t_id t = task_id) (tasks s) = Some (i, t) →
     m !! "title" = None → m !! "description" = None →
     m !! "completed" = None →
     serve (UpdateTask task_id (JObj m)) s =
       (if bool_decide (m = ∅) then (error_body "No data provided", 400)
        else (task_json t, 200), s)).
Proof.
  intros Ht Hd Hc. split_and!.
  - intros now s. unfold serve. simpl. by rewrite !create_task_obj, Ht, Hd, Hc.
  - intros task_id s Hempty. unfold serve. simpl. rewrite !update_task_eq.
    destruct (list_find _ _) as [[i t]|]; [|done]. simpl.
    rewrite (bool_decide_ext (m = ∅) (m' = ∅) Hempty).
    unfold merged. by rewrite Ht, Hd, Hc.
  - intros task_id s i t Hfind Hnt Hnd Hnc. unfold serve. simpl.
    rewrite update_task_eq, Hfind. simpl.
    destruct (bool_decide (m = ∅)); simpl; [done|].
    rewrite (merged_no_keys m t Hnt Hnd Hnc).
    apply list_find_task_lookup in Hfind as [Hi _].
    by rewrite (list_insert_id _ _ _ Hi), store_eta.
Qed.

(** X17. A 500 comes only from a create, or an update of an existing id,
    whose body is truthy and not an object. *)
Theorem internal_error_only_bad_body r s :
  (serve r s).1.2 = 500 →
  ∃ data,
    Py.truthy data = true ∧ (∀ m, data ≠ JObj m) ∧
    ((∃ now, r = CreateTask now data) ∨
     (∃ task_id, r = UpdateTask task_id data ∧
        is_Some (list_find (λ t, t_id t = task_id) (tasks s)))).
Proof.
  unfold serve.
  destruct r as [now| |task_id|now data|task_id data|task_id|task_id]; simpl.
  - done.
  - done.
  - rewrite get_task_eq. by destruct (list_find _ _) as [[i t]|].
  - destruct (json_obj_dec data) as [[m ->]|Hno].
    + rewrite create_task_obj. by destruct (m !! "title") as [v|].
    + destruct (Py.truthy data) eqn:Htruthy.
      * intros _. exists data. split_and!; [done|done|]. left. by exists now.
      * by rewrite create_task_falsy.
  - rewrite update_task_eq.
    destruct (list_find _ _) as [[i t]|] eqn:Hfind; [|done].
    destruct (Py.truthy data) eqn:Htruthy; simpl; [|done].
    destruct (json_obj_dec data) as [[m ->]|Hno]; [done|].
    intros _. exists data. split_and!; [done|done|].
    right. exists task_id. split; [done|]. rewrite Hfind. by eexists.
  - rewrite delete_task_eq. by destruct (list_find _ _) as [[i t]|].
  - rewrite toggle_task_eq. by destruct (list_find _ _) as [[i t]|].
Qed.

(** X18. In every store the service reaches from start-up the ids are
    strictly increasing along the list, lie between 1 and the counter, and
    the counter is at least 4. *)
Theorem reachable_invariant s :
  reachable s →
  StronglySorted Z.lt (t_id <$> tasks s) ∧
  Forall (λ t, 1 ≤ t_id t < task_counter s) (tasks s) ∧
  4 ≤ task_counter s.
Proof.
  induction 1 as [|r s Hr (Hsorted & Hbound & Hfour)].
  - split_and!.
    + simpl. repeat constructor.
    + simpl. repeat (apply Forall_cons; split; [simpl; lia|]). apply Forall_nil_2.
    + simpl. lia.
  - pose proof (serve_transition r s) as Htr.
    assert (counter_fresh s) as Hfresh.
    { eapply Forall_impl; [exact Hbound|]. simpl. intros. lia. }
    split_and!.
    + by eapply transition_sorted.
    + destruct Htr as [->|t Ht ->|i t t' Hi Ht ->|task_id ->]; simpl.
      * done.
      * apply Forall_app. split.
        -- eapply Forall_impl; [exact Hbound|]. simpl. intros. lia.
        -- apply Forall_singleton. lia.
      * apply Forall_insert; [done|]. rewrite Ht.
        by eapply (Forall_lookup_1 _ _ _ _ Hbound).
      * rewrite Forall_forall in Hbound |- *.
        intros t [_ Hin]%list_elem_of_filter. by apply Hbound.
    + apply transition_counter in Htr. lia.
Qed.


Lemma listed_task_fetchable_witness :
  ids_unique initial_store ∧
  tasks initial_store !! 1%nat = Some learn_react ∧
  ∃ listed,
    serve GetTasks initial_store =
      ((JObj (<["tasks" := JArr listed]>
             (<["total" := JInt (Z.of_nat (length listed))]> ∅)), 200),
       initial_store) ∧
    length listed = length (tasks initial_store) ∧
    listed !! 1%nat = Some (task_json learn_react) ∧
    serve (GetTask (t_id learn_react)) initial_store =
      ((task_json learn_react, 200), initial_store).
Proof.
  assert (ids_unique initial_store) as H
    by (unfold ids_unique; simpl; by apply (bool_decide_unpack _)).
  split; [exact H|]. split; [reflexivity|].
  exact (listed_task_fetchable initial_store 1 learn_react H eq_refl).
Defined.

Lemma create_task_bad_body_witness :
  serve (CreateTask "2024-01-02T09:00:00" (JInt 0)) initial_store =
    ((error_body "Title is required", 400), initial_store) ∧
  serve (CreateTask "2024-01-02T09:00:00" (JBool true)) initial_store =
    (internal_error, initial_store) ∧
  serve (CreateTask "2024-01-02T09:00:00" title_list) initial_store =
    (internal_error, initial_store) ∧
  serve (CreateTask "2024-01-02T09:00:00" (JArr [JInt 1])) initial_store =
    ((error_body "Title is required", 400), initial_store) ∧
  serve (CreateTask "2024-01-02T09:00:00" (JStr "abc")) initial_store =
    ((error_body "Title is required", 400), initial_store).
Proof.
  destruct (create_task_bad_body "2024-01-02T09:00:00" initial_store)
    as (Hfalsy & Hscalar & Hin & Hnotin & _ & Hnosub).
  split_and!.
  - exact (Hfalsy (JInt 0) eq_refl).
  - exact (Hscalar (JBool true) eq_refl eq_refl).
  - apply Hin. apply list_elem_of_singleton. reflexivity.
  - apply Hnotin. intros Hx%list_elem_of_singleton. discriminate.
  - apply Hnosub. intros pre post Heq.
    assert (Py.substring_of "title" "abc" = true) as Hsub
      by (apply substring_of_spec; eauto).
    discriminate.
Defined.

Lemma update_task_bad_body_witness :
  list_find (λ t, t_id t = 2) (tasks initial_store) = Some (1%nat, learn_react) ∧
  (∀ m, JInt 3 = JObj m → m = ∅) ∧
  serve (UpdateTask 2 (JInt 3)) initial_store = (internal_error, initial_store).
Proof.
  assert (∀ m, JInt 3 = JObj m → m = ∅) as H by discriminate.
  split; [reflexivity|]. split; [exact H|].
  exact (update_task_bad_body initial_store 2 (JInt 3) 1 learn_react eq_refl H).
Defined.

Lemma run_keeps_order_witness :
  counter_fresh initial_store ∧
  StronglySorted Z.lt (t_id <$> tasks initial_store) ∧
  (counter_fresh (run create_delete_create initial_store).2 ∧
   StronglySorted Z.lt
     (t_id <$> tasks (run create_delete_create initial_store).2) ∧
   task_counter initial_store
     ≤ task_counter (run create_delete_create initial_store).2).
Proof.
  assert (counter_fresh initial_store) as Hf
    by (unfold counter_fresh; simpl; repeat constructor).
  assert (StronglySorted Z.lt (t_id <$> tasks initial_store)) as Hs
    by (simpl; repeat constructor).
  split; [exact Hf|]. split; [exact Hs|].
  exact (run_keeps_order create_delete_create initial_store Hf Hs).
Defined.

Lemma id_and_created_at_kept_witness :
  toggled setup_cicd ∈ tasks (serve (ToggleTask 3) initial_store).2 ∧
  ((∃ t, t ∈ tasks initial_store ∧ t_id (toggled setup_cicd) = t_id t ∧
         t_created_at (toggled setup_cicd) = t_created_at t) ∨
   (∃ now data, ToggleTask 3 = CreateTask now data ∧
                t_id (toggled setup_cicd) = task_counter initial_store ∧
                t_created_at (toggled setup_cicd) = now)).
Proof.
  assert (toggled setup_cicd ∈ tasks (serve (ToggleTask 3) initial_store).2)
    as H by (vm_compute; repeat constructor).
  split; [exact H|].
  exact (id_and_created_at_kept (ToggleTask 3) initial_store _ H).
Defined.

Lemma get_task_frame_witness :
  target (DeleteTask 2) initial_store ≠ Some 3 ∧
  (serve (GetTask 3) (serve (DeleteTask 2) initial_store).2).1 =
  (serve (GetTask 3) initial_store).1.
Proof.
  assert (target (DeleteTask 2) initial_store ≠ Some 3) as H
    by (simpl; discriminate).
  split; [exact H|].
  exact (get_task_frame (DeleteTask 2) initial_store 3 H).
Defined.

Lemma create_then_delete_witness :
  counter_fresh initial_store ∧
  ∃ created s1,
    serve (CreateTask "2024-01-02T09:00:00" test_task) initial_store
      = ((created, 201), s1) ∧
    field "id" created = Some (JInt 4) ∧
    serve (DeleteTask 4) s1 =
      ((message_body "Task deleted successfully", 200),
       Store (tasks initial_store) 5).
Proof.
  assert (counter_fresh initial_store) as Hf
    by (unfold counter_fresh; simpl; repeat constructor).
  split; [exact Hf|].
  exact (create_then_delete "2024-01-02T09:00:00" test_task_fields
           (JStr "Test Task") initial_store Hf eq_refl).
Defined.

Lemma create_then_list_witness :
  ∃ created s1,
    serve (CreateTask "2024-01-02T09:00:00" test_task) initial_store
      = ((created, 201), s1) ∧
    (serve GetTasks s1).1 =
      (JObj (<["tasks" := JArr ((task_json <$> tasks initial_store)
                                ++ [created])]>
            (<["total" := JInt 4]> ∅)), 200) ∧
    (serve GetTasks initial_store).1 =
      (JObj (<["tasks" := JArr (task_json <$> tasks initial_store)]>
            (<["total" := JInt 3]> ∅)), 200).
Proof.
  exact (create_then_list "2024-01-02T09:00:00" test_task_fields
           (JStr "Test Task") initial_store eq_refl).
Defined.

Lemma created_id_usable_witness :
  counter_fresh initial_store ∧
  created_id (CreateTask "2024-01-02T09:00:00" test_task)
    (serve (CreateTask "2024-01-02T09:00:00" test_task) initial_store).1
    = Some 4 ∧
  (serve (ToggleTask 4)
     (serve (CreateTask "2024-01-02T09:00:00" test_task) initial_store).2).1.2
    = 200.
Proof.
  assert (counter_fresh initial_store) as Hf
    by (unfold counter_fresh; simpl; repeat constructor).
  assert (ToggleTask 4 ∈ [GetTask 4; UpdateTask 4 (JObj test_task_fields);
                          ToggleTask 4; DeleteTask 4]) as Hin
    by (repeat constructor).
  split; [exact Hf|]. split; [reflexivity|].
  exact (created_id_usable "2024-01-02T09:00:00" test_task_fields
           (JStr "Test Task") initial_store 4 _ Hf eq_refl eq_refl Hin).
Defined.

Lemma unassigned_id_not_found_witness :
  counter_fresh initial_store ∧
  task_counter initial_store ≤ 99999 ∧
  serve (GetTask 99999) initial_store =
    ((error_body "Task not found", 404), initial_store).
Proof.
  assert (counter_fresh initial_store) as Hf
    by (unfold counter_fresh; simpl; repeat constructor).
  assert (task_counter initial_store ≤ 99999) as Hge by (simpl; lia).
  assert (GetTask 99999 ∈ [GetTask 99999; UpdateTask 99999 test_task;
                           DeleteTask 99999; ToggleTask 99999]) as Hin
    by (repeat constructor).
  split; [exact Hf|]. split; [exact Hge|].
  exact (unassigned_id_not_found initial_store 99999 test_task _ Hf Hge Hin).
Defined.

Lemma payload_other_keys_ignored_witness :
  serve (CreateTask "2024-01-02T09:00:00" (JObj with_id_fields)) initial_store
    = serve (CreateTask "2024-01-02T09:00:00" (JObj title_only_fields))
        initial_store ∧
  serve (UpdateTask 2 (JObj with_id_fields)) initial_store
    = serve (UpdateTask 2 (JObj title_only_fields)) initial_store ∧
  serve (UpdateTask 2 (JObj id_only_fields)) initial_store
    = ((task_json learn_react, 200), initial_store) ∧
  serve (UpdateTask 2 (JObj ∅)) initial_store
    = ((error_body "No data provided", 400), initial_store).
Proof.
  destruct (payload_other_keys_ignored with_id_fields title_only_fields
              eq_refl eq_refl eq_refl) as (Hcreate & Hupdate & _).
  destruct (payload_other_keys_ignored id_only_fields ∅
              eq_refl eq_refl eq_refl) as (_ & _ & Hnokeys).
  destruct (payload_other_keys_ignored ∅ ∅ eq_refl eq_refl eq_refl)
    as (_ & _ & Hempty).
  split_and!.
  - exact (Hcreate "2024-01-02T09:00:00" initial_store).
  - apply Hupdate. split; intros Heq.
    + by destruct (insert_non_empty _ _ _ Heq).
    + by destruct (map_non_empty_singleton _ _ Heq).
  - exact (Hnokeys 2 initial_store 1%nat learn_react
             eq_refl eq_refl eq_refl eq_refl).
  - exact (Hempty 2 initial_store 1%nat learn_react
             eq_refl eq_refl eq_refl eq_refl).
Defined.

Lemma internal_error_only_bad_body_witness :
  (serve (CreateTask "2024-01-02T09:00:00" title_list) initial_store).1.2
    = 500 ∧
  ∃ data,
    Py.truthy data = true ∧ (∀ m, data ≠ JObj m) ∧
    ((∃ now, CreateTask "2024-01-02T09:00:00" title_list
               = CreateTask now data) ∨
     (∃ task_id, CreateTask "2024-01-02T09:00:00" title_list
                   = UpdateTask task_id data ∧
        is_Some (list_find (λ t, t_id t = task_id) (tasks initial_store)))).
Proof.
  split; [reflexivity|].
  exact (internal_error_only_bad_body
           (CreateTask "2024-01-02T09:00:00" title_list) initial_store eq_refl).
Defined.

Lemma reachable_invariant_witness :
  reachable (serve (CreateTask "2024-01-02T09:00:00" test_task)
                   initial_store).2 ∧
  (StronglySorted Z.lt
     (t_id <$> tasks (serve (CreateTask "2024-01-02T09:00:00" test_task)
                            initial_store).2) ∧
   Forall (λ t, 1 ≤ t_id t <
                task_counter (serve (CreateTask "2024-01-02T09:00:00" test_task)
                                    initial_store).2)
     (tasks (serve (CreateTask "2024-01-02T09:00:00" test_task)
                   initial_store).2) ∧
   4 ≤ task_counter (serve (CreateTask "2024-01-02T09:00:00" test_task)
                           initial_store).2).
Proof.
  assert (reachable (serve (CreateTask "2024-01-02T09:00:00" test_task)
                           initial_store).2) as H
    by (apply reach_serve, reach_start).
  split; [exact H|].
  exact (reachable_invariant _ H).
Defined.

(** * Requests whose body [get_json] refuses *)

(** C2, where the code departs from it.  A create sent with no payload at
    all never reaches [if not data]: [request.get_json()] ends the request
    with the HTML page of a 400 (JSON content type, empty body) or of a 415
    (no JSON content type), neither of which has an [error] field, and the
    store is as before.  Only the body [null], for which [get_json] returns
    [None], gets the 400 with the [error] field that the handler builds. *)
Theorem create_task_no_payload now s :
  answer (Post now Unparsable) s = (HtmlReply 400, s) ∧
  answer (Post now NotJson) s = (HtmlReply 415, s) ∧
  error_field (answer (Post now Unparsable) s).1 = None ∧
  error_field (answer (Post now NotJson) s).1 = None ∧
  answer (Post now (Document JNull)) s =
    (JsonReply (error_body "Title is required", 400), s) ∧
  error_field (answer (Post now (Document JNull)) s).1 =
    Some (JStr "Title is required").
Proof. split_and!; reflexivity. Qed.

(** X19. Every answer of the seven routes is either a JSON response with
    status 200, 201, 400, 404 or 500 whose body has an [error] field exactly
    when the status is not 200 or 201, or the HTML page of a 400 or 415 with
    no [error] field; the latter comes only from a create, or an update of
    an existing id, whose body [get_json] refuses, and leaves the store
    alone. *)
Theorem answer_error_field c s :
  (∃ body status,
     (answer c s).1 = JsonReply (body, status) ∧
     (((status = 200 ∨ status = 201) ∧ field "error" body = None) ∨
      ((status = 400 ∨ status = 404 ∨ status = 500) ∧
       is_Some (field "error" body)))) ∨
  (∃ e p,
     (answer c s).1 = HtmlReply (exception_status e) ∧
     error_field (answer c s).1 = None ∧
     get_json p = inl e ∧
     (answer c s).2 = s ∧
     ((∃ now, c = Post now p) ∨
      (∃ task_id, c = Put task_id p ∧
         is_Some (list_find (λ t, t_id t = task_id) (tasks s))))).
Proof.
  assert (∀ r, ∃ body status,
            (json_reply (serve r s)).1 = JsonReply (body, status) ∧
            (((status = 200 ∨ status = 201) ∧ field "error" body = None) ∨
             ((status = 400 ∨ status = 404 ∨ status = 500) ∧
              is_Some (field "error" body)))) as Hjson.
  { intros r. pose proof (serve_error_field r s) as H.
    destruct (serve r s) as [[body status] s']. simpl in *.
    exists body, status. done. }
  destruct c as [now| |task_id|now p|task_id p|task_id|task_id].
  - left. apply Hjson.
  - left. apply Hjson.
  - left. apply Hjson.
  - destruct p as [| |data].
    + right. exists UnsupportedMediaType, NotJson. split_and!; try done.
      left. by exists now.
    + right. exists BadRequest, Unparsable. split_and!; try done.
      left. by exists now.
    + left. apply Hjson.
  - unfold answer.
    destruct (list_find _ _) as [[i t]|] eqn:Hfind; destruct p as [| |data].
    + right. exists UnsupportedMediaType, NotJson. split_and!; try done.
      right. exists task_id. split; [done|]. rewrite Hfind. by eexists.
    + right. exists BadRequest, Unparsable. split_and!; try done.
      right. exists task_id. split; [done|]. rewrite Hfind. by eexists.
    + left. apply Hjson.
    + left. eexists _, _. split; [done|]. right.
      split; [by right; left|by eexists].
    + left. eexists _, _. split; [done|]. right.
      split; [by right; left|by eexists].
    + left. apply Hjson.
  - left. apply Hjson.
  - left. apply Hjson.
Qed.
